(** * FHIR server uploader (app.py): model and verified properties

    The uploader reads FHIR bundles (JSON files) from a directory, posts
    each of them to a FHIR server, tallies the outcomes and prints a
    summary.  The development below embeds [FHIRUploader] and [main] as
    Rocq functions over an explicit environment:

    - the values produced by [json.load] / [response.json()] are the
      inductive type [value];
    - every call that leaves the program (environment variables, the
      directory listing, opening and decoding a file, the HTTP session,
      [time.sleep]) is a field of the record [World], so that every
      theorem quantifies over all behaviours of the file system and of the
      server;
    - the effects of the program (console output, files opened, HTTP
      requests sent, sleeps) are recorded, in order, in a trace of
      [event]s threaded through the monad [Py], which also carries Python
      exceptions. *)

From Stdlib Require Import List String Ascii ZArith Bool Arith Lia.
From Stdlib Require Import Sorting.Sorted Sorting.Permutation.
From Stdlib Require Import Floats.SpecFloat.
Import ListNotations.

Local Open Scope string_scope.
Local Open Scope list_scope.

#[local] Set Warnings "-register-all".

(** ** Python values and exceptions *)

(** The objects [json.load] builds: [None], [bool], [int], [float], [str],
    [list] and [dict].  A [dict] is kept as its items in insertion order;
    the keys of a Python dict are unique and JSON keys are strings. *)
Inductive value : Type :=
| VNone
| VBool (b : bool)
| VInt (z : Z)
| VFloat (f : spec_float)
| VStr (s : string)
| VList (items : list value)
| VDict (items : list (string * value)).

(** The exception classes that occur in the program; all of them derive
    from [Exception]. *)
Inductive exn_class : Type :=
| OSError
| UnicodeDecodeError
| JSONDecodeError
| RequestException
| AttributeError
| TypeError
| KeyError
| ZeroDivisionError
| ValueError
| OverflowError.

Record exn : Type := mk_exn { exn_class_of : exn_class; exn_msg : string }.

Inductive pyresult (A : Type) : Type :=
| Return (a : A)
| Raise (e : exn).
Arguments Return {A} a.
Arguments Raise {A} e.

(** Truth value of an object, as tested by [if x:] and [all]. *)
Definition float_is_zero (f : spec_float) : bool :=
  match f with
  | S754_zero _ => true
  | _ => false
  end.

Definition truthy (v : value) : bool :=
  match v with
  | VNone => false
  | VBool b => b
  | VInt z => negb (z =? 0)%Z
  | VFloat f => negb (float_is_zero f)
  | VStr s => negb (s =? "")%string
  | VList items => negb (Nat.eqb (List.length items) 0)
  | VDict items => negb (Nat.eqb (List.length items) 0)
  end.

(** [d.get(key, default)] on the items of a dict. *)
Fixpoint dict_get (items : list (string * value)) (key : string) (default : value) : value :=
  match items with
  | [] => default
  | (k, v) :: rest => if (k =? key)%string then v else dict_get rest key default
  end.

Fixpoint dict_find (items : list (string * value)) (key : string) : option value :=
  match items with
  | [] => None
  | (k, v) :: rest => if (k =? key)%string then Some v else dict_find rest key
  end.

(** [obj.get(key, default)]: only a dict has the method. *)
Definition py_get (obj : value) (key : string) (default : value) : pyresult value :=
  match obj with
  | VDict items => Return (dict_get items key default)
  | _ => Raise (mk_exn AttributeError "object has no attribute 'get'")
  end.

(** [obj[key]] with a string key: a missing key of a dict is a [KeyError],
    a list or a string refuses a string index, the other objects are not
    subscriptable. *)
Definition py_getitem (obj : value) (key : string) : pyresult value :=
  match obj with
  | VDict items =>
      match dict_find items key with
      | Some v => Return v
      | None => Raise (mk_exn KeyError key)
      end
  | VList _ => Raise (mk_exn TypeError "list indices must be integers or slices, not str")
  | VStr _ => Raise (mk_exn TypeError "string indices must be integers")
  | _ => Raise (mk_exn TypeError "object is not subscriptable")
  end.

Fixpoint chars (s : string) : list value :=
  match s with
  | EmptyString => []
  | String c rest => VStr (String c EmptyString) :: chars rest
  end.

(** The items a [for] loop draws from an object: the elements of a list,
    the characters of a string, the keys of a dict; the other objects are
    not iterable. *)
Definition py_iter (obj : value) : pyresult (list value) :=
  match obj with
  | VList items => Return items
  | VStr s => Return (chars s)
  | VDict items => Return (map (fun kv => VStr (fst kv)) items)
  | _ => Raise (mk_exn TypeError "object is not iterable")
  end.

(** [v == s] for a string literal [s]. *)
Definition eq_str (v : value) (s : string) : bool :=
  match v with
  | VStr t => (t =? s)%string
  | _ => false
  end.

(** ** HTTP, console and trace *)

Inductive http_method : Type := GET | POST.

Record http_request : Type := mk_request {
  method : http_method;
  url : string;
  headers : list (string * string);
  params : list (string * string);
  json_body : option value;
  timeout : Z
}.

(** A response as the program uses it: [status_code], [text] and the
    outcome of [response.json()], which raises when the body is not valid
    JSON. *)
Record http_response : Type := mk_response {
  status_code : Z;
  text : string;
  json : pyresult value
}.

(** The pieces of a printed line (the fields of an f-string).
    [FPercent n d] is the value of [n/d*100] under the format [.1f]. *)
Inductive fragment : Type :=
| FStr (s : string)
| FInt (z : Z)
| FValue (v : value)
| FExn (e : exn)
| FPercent (num den : nat).

Inductive event : Type :=
| EvPrint (line : list fragment) (end_ : string)
| EvOpen (directory name : string)
| EvHttp (req : http_request)
| EvSleep (secs : spec_float).

Definition trace : Type := list event.

Fixpoint http_requests (tr : trace) : list http_request :=
  match tr with
  | [] => []
  | EvHttp req :: rest => req :: http_requests rest
  | _ :: rest => http_requests rest
  end.

Fixpoint opened_files (tr : trace) : list string :=
  match tr with
  | [] => []
  | EvOpen _ name :: rest => name :: opened_files rest
  | _ :: rest => opened_files rest
  end.

Fixpoint printed (tr : trace) : list (list fragment) :=
  match tr with
  | [] => []
  | EvPrint line _ :: rest => line :: printed rest
  | _ :: rest => printed rest
  end.

(** ** The environment *)

(** Everything the program asks of the outside: [os.getenv] (after
    [load_dotenv()]), [Path.exists], the names in a directory, the outcome
    of [open(path, 'r')] followed by [json.load] (the file system is read
    only and does not change during a run), the session's answer to a
    request given the requests sent before (retries happen inside the
    session; a transport failure is a raised exception), and [time.sleep]. *)
Record World : Type := mk_world {
  getenv : string -> option string;
  path_exists : string -> bool;
  listdir : string -> list string;
  json_load : string -> string -> pyresult value;
  session_send : list http_request -> http_request -> pyresult http_response;
  time_sleep : spec_float -> pyresult unit
}.

(** ** The monad of the program: a trace and exceptions *)

Definition Py (A : Type) : Type := trace -> trace * pyresult A.

Definition ret {A : Type} (a : A) : Py A := fun tr => (tr, Return a).

Definition raise {A : Type} (e : exn) : Py A := fun tr => (tr, Raise e).

Definition bind {A B : Type} (m : Py A) (k : A -> Py B) : Py B :=
  fun tr =>
    match m tr with
    | (tr1, Return a) => k a tr1
    | (tr1, Raise e) => (tr1, Raise e)
    end.

(** [try: body except Exception as e: handler e] *)
Definition try_except {A : Type} (body : Py A) (handler : exn -> Py A) : Py A :=
  fun tr =>
    match body tr with
    | (tr1, Return a) => (tr1, Return a)
    | (tr1, Raise e) => handler e tr1
    end.

Definition lift {A : Type} (r : pyresult A) : Py A := fun tr => (tr, r).

Definition emit (e : event) : Py unit := fun tr => (tr ++ [e], Return tt).

Declare Scope py_scope.
Delimit Scope py_scope with py.
Notation "x <- m ;; k" := (bind m (fun x => k))
  (at level 100, m at next level, right associativity) : py_scope.
Notation "m ;; k" := (bind m (fun _ => k))
  (at level 100, right associativity) : py_scope.
Local Open Scope py_scope.

Definition newline : string := String (ascii_of_nat 10) EmptyString.

Definition print (line : list fragment) : Py unit := emit (EvPrint line newline).

Definition print_end (line : list fragment) (end_ : string) : Py unit :=
  emit (EvPrint line end_).

Fixpoint str_repeat (s : string) (n : nat) : string :=
  match n with
  | O => EmptyString
  | S k => String.append s (str_repeat s k)
  end.

(** [a % b] on ints. *)
Definition py_mod (a b : Z) : Py Z :=
  if (b =? 0)%Z then raise (mk_exn ZeroDivisionError "integer modulo by zero")
  else ret (a mod b)%Z.

(** [n / d * 100] formatted with [.1f]. *)
Definition py_percent (n d : nat) : Py fragment :=
  if Nat.eqb d 0 then raise (mk_exn ZeroDivisionError "division by zero")
  else ret (FPercent n d).

(** ** Directory scan: [sorted(list(directory.glob("*.json")))] *)

(** A name matches [*.json] when it ends with [.json]. *)
Definition glob_json (name : string) : bool :=
  let n := String.length name in
  Nat.leb 5 n && (substring (n - 5) 5 name =? ".json")%string.

Fixpoint insert_sorted (x : string) (l : list string) : list string :=
  match l with
  | [] => [x]
  | y :: rest => if String.leb x y then x :: l else y :: insert_sorted x rest
  end.

(** [sorted] on paths of one directory orders them by name, character by
    character. *)
Fixpoint sorted (l : list string) : list string :=
  match l with
  | [] => []
  | x :: rest => insert_sorted x (sorted rest)
  end.

(** ** Upload statistics *)

Record Stats : Type := mk_stats {
  total : nat;
  successful : nat;
  failed : nat;
  patients : nat;
  observations : nat;
  medications : nat
}.

Definition incr_successful (s : Stats) : Stats :=
  mk_stats (total s) (successful s + 1) (failed s) (patients s) (observations s) (medications s).

Definition incr_failed (s : Stats) : Stats :=
  mk_stats (total s) (successful s) (failed s + 1) (patients s) (observations s) (medications s).

Definition incr_patients (s : Stats) : Stats :=
  mk_stats (total s) (successful s) (failed s) (patients s + 1) (observations s) (medications s).

Definition incr_observations (s : Stats) : Stats :=
  mk_stats (total s) (successful s) (failed s) (patients s) (observations s + 1) (medications s).

Definition incr_medications (s : Stats) : Stats :=
  mk_stats (total s) (successful s) (failed s) (patients s) (observations s) (medications s + 1).

(** The [if / elif / elif] on [resource_type]. *)
Definition count_type (resource_type : value) (stats : Stats) : Stats :=
  if eq_str resource_type "Patient" then incr_patients stats
  else if eq_str resource_type "Observation" then incr_observations stats
  else if eq_str resource_type "MedicationStatement" then incr_medications stats
  else stats.

(** The body of [for entry in bundle.get('entry', [])]: the counters are
    updated in place, so what was counted before an exception stays. *)
Fixpoint count_entries (entries : list value) (stats : Stats) : Stats * pyresult unit :=
  match entries with
  | [] => (stats, Return tt)
  | entry :: rest =>
      match py_getitem entry "resource" with
      | Raise e => (stats, Raise e)
      | Return resource =>
          match py_get resource "resourceType" VNone with
          | Raise e => (stats, Raise e)
          | Return resource_type => count_entries rest (count_type resource_type stats)
          end
      end
  end.

Definition count_bundle (bundle : value) (stats : Stats) : Stats * pyresult unit :=
  match py_get bundle "entry" (VList []) with
  | Raise e => (stats, Raise e)
  | Return entries =>
      match py_iter entries with
      | Raise e => (stats, Raise e)
      | Return items => count_entries items stats
      end
  end.

(** ** class FHIRUploader *)

Record FHIRUploader : Type := mk_uploader {
  base_url : string;
  client_id : string;
  client_secret : string;
  batch_size : Z;
  delay_seconds : spec_float
}.

Definition FHIRUploader_init (hostname client_id client_secret : string)
    (batch_size : Z) (delay_seconds : spec_float) : FHIRUploader :=
  mk_uploader (String.append "https://" (String.append hostname "/fhir/R4"))
    client_id client_secret batch_size delay_seconds.

Definition _get_headers (self : FHIRUploader) : list (string * string) :=
  [ ("Content-Type", "application/fhir+json");
    ("Accept", "application/fhir+json");
    ("CF-Access-Client-Id", client_id self);
    ("CF-Access-Client-Secret", client_secret self) ].

Section Program.

Variable w : World.

(** One request through the session: it is recorded, then answered. *)
Definition session_request (req : http_request) : Py http_response :=
  fun tr => (tr ++ [EvHttp req], session_send w (http_requests tr) req).

Definition session_get (url : string) (headers params : list (string * string))
    (timeout : Z) : Py http_response :=
  session_request (mk_request GET url headers params None timeout).

Definition session_post (url : string) (headers : list (string * string))
    (body : value) (timeout : Z) : Py http_response :=
  session_request (mk_request POST url headers [] (Some body) timeout).

Definition response_json (response : http_response) : Py value :=
  lift (json response).

(** [with open(file_path, 'r') as f: bundle = json.load(f)] *)
Definition load_bundle (directory name : string) : Py value :=
  fun tr => (tr ++ [EvOpen directory name], json_load w directory name).

Definition sleep (secs : spec_float) : Py unit :=
  fun tr => (tr ++ [EvSleep secs], time_sleep w secs).

Definition test_connection (self : FHIRUploader) : Py bool :=
  try_except
    (response <- session_get (String.append (base_url self) "/metadata")
                   (_get_headers self) [] 10 ;;
     if (status_code response =? 200)%Z then
       print [FStr "✓ Successfully connected to FHIR server"] ;;
       metadata <- response_json response ;;
       software <- lift (py_get metadata "software" (VDict [])) ;;
       name <- lift (py_get software "name" (VStr "Unknown")) ;;
       print [FStr "  Server: "; FValue name] ;;
       version <- lift (py_get metadata "fhirVersion" (VStr "Unknown")) ;;
       print [FStr "  Version: "; FValue version] ;;
       ret true
     else
       print [FStr "✗ Connection failed: "; FInt (status_code response)] ;;
       print [FStr "  Response: "; FStr (text response)] ;;
       ret false)
    (fun e =>
       print [FStr "✗ Connection error: "; FExn e] ;;
       ret false).

(** Returns the response of the server, or [None] ([VNone]) if failed. *)
Definition upload_bundle (self : FHIRUploader) (bundle : value) : Py value :=
  try_except
    (response <- session_post (base_url self) (_get_headers self) bundle 30 ;;
     if ((status_code response =? 200) || (status_code response =? 201))%Z then
       response_json response
     else
       print [FStr "  Upload failed: "; FInt (status_code response)] ;;
       print [FStr "  Response: "; FStr (substring 0 500 (text response))] ;;
       ret VNone)
    (fun e =>
       print [FStr "  Upload error: "; FExn e] ;;
       ret VNone).

Definition upload_bundle_file (self : FHIRUploader) (directory name : string) : Py bool :=
  try_except
    (bundle <- load_bundle directory name ;;
     result <- upload_bundle self bundle ;;
     if truthy result then ret true else ret false)
    (fun e =>
       print [FStr "  Error processing file "; FStr name; FStr ": "; FExn e] ;;
       ret false).

(** The guarded counting block of the loop: [try: ... except: pass]. *)
Definition count_resources (directory name : string) (stats : Stats) : Py Stats :=
  fun tr =>
    let tr1 := tr ++ [EvOpen directory name] in
    match json_load w directory name with
    | Raise _ => (tr1, Return stats)
    | Return bundle => (tr1, Return (fst (count_bundle bundle stats)))
    end.

(** [for idx, file_path in enumerate(bundle_files, 1): ...] *)
Fixpoint upload_loop (self : FHIRUploader) (directory : string)
    (bundle_files : list string) (idx : Z) (total_files : nat) (stats : Stats)
    : Py Stats :=
  match bundle_files with
  | [] => ret stats
  | name :: rest =>
      print_end [FStr "["; FInt idx; FStr "/"; FInt (Z.of_nat total_files);
                 FStr "] Uploading "; FStr name; FStr "..."] " " ;;
      stats <- count_resources directory name stats ;;
      success <- upload_bundle_file self directory name ;;
      stats <- (if success : bool
                then print [FStr "✓"] ;; ret (incr_successful stats)
                else print [FStr "✗"] ;; ret (incr_failed stats)) ;;
      r <- py_mod idx (batch_size self) ;;
      (if (r =? 0)%Z
       then print [FStr "  Progress: "; FInt (Z.of_nat (successful stats));
                   FStr " successful, "; FInt (Z.of_nat (failed stats)); FStr " failed"]
       else ret tt) ;;
      sleep (delay_seconds self) ;;
      upload_loop self directory rest (idx + 1) total_files stats
  end.

Definition bundle_files_of (directory : string) : list string :=
  sorted (filter glob_json (listdir w directory)).

Definition upload_directory (self : FHIRUploader) (directory : string) : Py Stats :=
  let bundle_files := bundle_files_of directory in
  let total_files := List.length bundle_files in
  print [FStr newline; FStr "Uploading "; FInt (Z.of_nat total_files);
         FStr " bundles from "; FStr directory] ;;
  print [FStr (str_repeat "=" 70)] ;;
  stats <- upload_loop self directory bundle_files 1 total_files
             (mk_stats total_files 0 0 0 0 0) ;;
  print [FStr newline; FStr (str_repeat "=" 70)] ;;
  print [FStr "Upload Summary:"] ;;
  print [FStr "  Total bundles: "; FInt (Z.of_nat (total stats))] ;;
  pct <- py_percent (successful stats) (total stats) ;;
  print [FStr "  Successful: "; FInt (Z.of_nat (successful stats)); FStr " ("; pct; FStr "%)"] ;;
  print [FStr "  Failed: "; FInt (Z.of_nat (failed stats))] ;;
  print [FStr newline; FStr "Resources uploaded:"] ;;
  print [FStr "  Patients: "; FInt (Z.of_nat (patients stats))] ;;
  print [FStr "  Observations: "; FInt (Z.of_nat (observations stats))] ;;
  print [FStr "  Medications: "; FInt (Z.of_nat (medications stats))] ;;
  ret stats.

(** [params or {}] *)
Definition params_or_empty (params : option (list (string * string))) : list (string * string) :=
  match params with
  | Some p => p
  | None => []
  end.

Definition search_patients (self : FHIRUploader)
    (params : option (list (string * string))) : Py value :=
  try_except
    (response <- session_get (String.append (base_url self) "/Patient")
                   (_get_headers self) (params_or_empty params) 10 ;;
     if (status_code response =? 200)%Z then
       response_json response
     else
       print [FStr "Search failed: "; FInt (status_code response)] ;;
       ret VNone)
    (fun e =>
       print [FStr "Search error: "; FExn e] ;;
       ret VNone).

(** ** main *)

(** Truth value of what [os.getenv] returns: [None] and the empty string
    are false. *)
Definition env_truthy (v : option string) : bool :=
  match v with
  | None => false
  | Some s => negb (s =? "")%string
  end.

Definition py_all (l : list (option string)) : bool := forallb env_truthy l.

(** The string in a variable known to be set. *)
Definition env_str (v : option string) : string :=
  match v with
  | Some s => s
  | None => "None"
  end.

Definition getenv_default (name default : string) : string :=
  match getenv w name with
  | Some s => s
  | None => default
  end.

Definition report_missing_env : Py unit :=
  print [FStr "Error: Missing environment variables"] ;;
  print [FStr "Please set HTTP_HOSTNAME, HTTP_CLIENT_ID, and HTTP_CLIENT_SECRET"] ;;
  print [FStr newline; FStr "Create a .env file with:"] ;;
  print [FStr "HTTP_HOSTNAME=your-fhir-server.com"] ;;
  print [FStr "HTTP_CLIENT_ID=your-client-id"] ;;
  print [FStr "HTTP_CLIENT_SECRET=your-client-secret"].

Definition main : Py unit :=
  let hostname := getenv w "HTTP_HOSTNAME" in
  let client_id := getenv w "HTTP_CLIENT_ID" in
  let client_secret := getenv w "HTTP_CLIENT_SECRET" in
  let processed_fhir_dir := getenv_default "PROCESSED_FHIR_DIR" "./processed_fhir" in
  if negb (py_all [hostname; client_id; client_secret]) then
    report_missing_env
  else
    let uploader :=
      FHIRUploader_init (env_str hostname) (env_str client_id) (env_str client_secret)
        10 (S754_finite false 4503599627370496 (-53)) in
    print [FStr "Testing FHIR server connection..."] ;;
    connected <- test_connection uploader ;;
    if negb connected then
      print [FStr newline; FStr "Cannot connect to FHIR server. Please check:"] ;;
      print [FStr "1. Server hostname is correct"] ;;
      print [FStr "2. Client ID and secret are valid"] ;;
      print [FStr "3. Network connectivity"]
    else
      let input_dir := processed_fhir_dir in
      if negb (path_exists w input_dir) then
        print [FStr newline; FStr "Error: Directory "; FStr input_dir; FStr " does not exist"] ;;
        print [FStr "Run post_process_fhir.py first to generate processed bundles"]
      else
        stats <- upload_directory uploader input_dir ;;
        print [FStr newline; FStr "Verifying upload..."] ;;
        search_result <- search_patients uploader (Some [("_count", "10")]) ;;
        if truthy search_result then
          total <- lift (py_get search_result "total" (VInt 0)) ;;
          print [FStr "✓ Found "; FValue total; FStr " patients on server"]
        else ret tt.

End Program.

Arguments bind {A B} m k tr /.
Arguments ret {A} a tr /.
Arguments raise {A} e tr /.
Arguments lift {A} r tr /.
Arguments try_except {A} body handler tr /.
Arguments emit e tr /.
Arguments print line tr /.
Arguments print_end line end_ tr /.

(** ** A sample run: three bundles, one of them unreadable *)

Module Sample.

Definition patient_entry (id : string) : value :=
  VDict [("resource", VDict [("resourceType", VStr "Patient"); ("id", VStr id)])].

Definition two_patients : value :=
  VDict [("resourceType", VStr "Bundle");
         ("entry", VList [patient_entry "p1"; patient_entry "p2"])].

Definition empty_bundle : value := VDict [("resourceType", VStr "Bundle")].

Definition not_json : exn := mk_exn JSONDecodeError "Expecting value: line 1 column 1 (char 0)".

Definition accepted : http_response :=
  mk_response 200 "{}" (Return (VDict [("resourceType", VStr "Bundle")])).

Definition env (name : string) : option string :=
  if (name =? "HTTP_HOSTNAME")%string then Some "fhir.example.com"
  else if (name =? "HTTP_CLIENT_ID")%string then Some "id"
  else if (name =? "HTTP_CLIENT_SECRET")%string then Some "secret"
  else None.

Definition files (directory name : string) : pyresult value :=
  if (name =? "a.json")%string then Return two_patients
  else if (name =? "b.json")%string then Return empty_bundle
  else Raise not_json.

Definition world : World :=
  mk_world env (fun _ => true)
    (fun _ => ["c.json"; "notes.txt"; "a.json"; "b.json"])
    files (fun _ _ => Return accepted) (fun _ => Return tt).

Definition uploader : FHIRUploader :=
  FHIRUploader_init "fhir.example.com" "id" "secret" 10
    (S754_finite false 4503599627370496 (-53)).

Definition directory : string := "./processed_fhir".

(** A bundle whose first entry is malformed ([null]) and whose second
    entry is a patient. *)
Definition malformed_first : value :=
  VDict [("resourceType", VStr "Bundle");
         ("entry", VList [VNone; patient_entry "p1"])].

Definition world_malformed : World :=
  mk_world env (fun _ => true) (fun _ => ["a.json"])
    (fun _ _ => Return malformed_first) (fun _ _ => Return accepted) (fun _ => Return tt).

(** A directory without any bundle. *)
Definition world_empty : World :=
  mk_world env (fun _ => true) (fun _ => ["notes.txt"])
    files (fun _ _ => Return accepted) (fun _ => Return tt).

(** A server that answers 200 with a body that is not JSON. *)
Definition html_page : http_response :=
  mk_response 200 "<html>OK</html>" (Raise not_json).

Definition world_html : World :=
  mk_world env (fun _ => true) (fun _ => ["a.json"])
    files (fun _ _ => Return html_page) (fun _ => Return tt).

(** A server that cannot be reached. *)
Definition unreachable : exn := mk_exn RequestException "Name or service not known".

Definition world_unreachable : World :=
  mk_world env (fun _ => true) (fun _ => ["a.json"])
    files (fun _ _ => Raise unreachable) (fun _ => Return tt).

(** Environments without a client secret, and with an empty one. *)
Definition env_no_secret (name : string) : option string :=
  if (name =? "HTTP_CLIENT_SECRET")%string then None else env name.

Definition env_empty_secret (name : string) : option string :=
  if (name =? "HTTP_CLIENT_SECRET")%string then Some "" else env name.

Definition world_no_secret : World :=
  mk_world env_no_secret (fun _ => true)
    (fun _ => ["c.json"; "notes.txt"; "a.json"; "b.json"])
    files (fun _ _ => Return accepted) (fun _ => Return tt).

Definition world_empty_secret : World :=
  mk_world env_empty_secret (fun _ => true)
    (fun _ => ["c.json"; "notes.txt"; "a.json"; "b.json"])
    files (fun _ _ => Return accepted) (fun _ => Return tt).

End Sample.

(** ** Counting, as a function of the directory content *)

Section Counting.

Variable w : World.
Variable directory : string.

(** The items the counting loop iterates over for one file: those of
    [bundle.get('entry', [])], none when the file cannot be read or the
    bundle has no iterable [entry]. *)
Definition file_entries (name : string) : list value :=
  match json_load w directory name with
  | Raise _ => []
  | Return bundle =>
      match py_get bundle "entry" (VList []) with
      | Raise _ => []
      | Return entries =>
          match py_iter entries with
          | Raise _ => []
          | Return items => items
          end
      end
  end.

(** An entry is well formed when [entry['resource'].get('resourceType')]
    evaluates: the entry is a dict with a dict under the key [resource]. *)
Definition well_formed (entry : value) : bool :=
  match py_getitem entry "resource" with
  | Return resource =>
      match py_get resource "resourceType" VNone with
      | Return _ => true
      | Raise _ => false
      end
  | Raise _ => false
  end.

(** The entry wraps a resource whose [resourceType] is [ty]. *)
Definition entry_has_type (ty : string) (entry : value) : bool :=
  match py_getitem entry "resource" with
  | Return resource =>
      match py_get resource "resourceType" VNone with
      | Return resource_type => eq_str resource_type ty
      | Raise _ => false
      end
  | Raise _ => false
  end.

(** The entries in front of the first malformed one. *)
Fixpoint counted_prefix (entries : list value) : list value :=
  match entries with
  | [] => []
  | entry :: rest => if well_formed entry then entry :: counted_prefix rest else []
  end.

Definition count_of (ty : string) (entries : list value) : nat :=
  List.length (filter (entry_has_type ty) entries).

(** The count as the specification words it: every entry of type [ty],
    in every file. *)
Definition matching_entries (ty : string) (names : list string) : nat :=
  list_sum (map (fun name => count_of ty (file_entries name)) names).

(** The count the loop computes: the entries of type [ty] in front of the
    first malformed entry of their file. *)
Definition counted_entries (ty : string) (names : list string) : nat :=
  list_sum (map (fun name => count_of ty (counted_prefix (file_entries name))) names).

End Counting.

(** The requests [test_connection], [upload_bundle] and [search_patients]
    send. *)
Definition metadata_request (self : FHIRUploader) : http_request :=
  mk_request GET (String.append (base_url self) "/metadata") (_get_headers self) [] None 10.

Definition upload_request (self : FHIRUploader) (bundle : value) : http_request :=
  mk_request POST (base_url self) (_get_headers self) [] (Some bundle) 30.

Definition search_request (self : FHIRUploader)
    (params : option (list (string * string))) : http_request :=
  mk_request GET (String.append (base_url self) "/Patient") (_get_headers self)
    (params_or_empty params) None 10.

(** The status of the response is one of those [upload_bundle] accepts. *)
Definition upload_ok (response : http_response) : bool :=
  ((status_code response =? 200) || (status_code response =? 201))%Z.

(** The result of [upload_bundle] as the specification words it: the
    parsed body of the response exactly when the status is 200 or 201. *)
Definition body_iff_success_status (w : World) (self : FHIRUploader) (bundle : value)
    (tr : trace) : Prop :=
  forall response,
    session_send w (http_requests tr) (upload_request self bundle) = Return response ->
    ((status_code response = 200 \/ status_code response = 201)%Z <->
     exists body, json response = Return body /\
                  snd (upload_bundle w self bundle tr) = Return body).

(** Every file is opened twice, by the counting block and by
    [upload_bundle_file]. *)
Definition twice (names : list string) : list string :=
  flat_map (fun name => [name; name]) names.

(** The order of [sorted]: character by character. *)
Definition name_le (a b : string) : Prop := String.leb a b = true.

(** One of the required variables is not set. *)
Definition missing_required (w : World) : Prop :=
  getenv w "HTTP_HOSTNAME" = None \/
  getenv w "HTTP_CLIENT_ID" = None \/
  getenv w "HTTP_CLIENT_SECRET" = None.

(** One of the required variables is set to the empty string. *)
Definition empty_required (w : World) : Prop :=
  getenv w "HTTP_HOSTNAME" = Some "" \/
  getenv w "HTTP_CLIENT_ID" = Some "" \/
  getenv w "HTTP_CLIENT_SECRET" = Some "".

(** ** Further observations of a run *)

Fixpoint sleeps (tr : trace) : list spec_float :=
  match tr with
  | [] => []
  | EvSleep secs :: rest => secs :: sleeps rest
  | _ :: rest => sleeps rest
  end.

(** The bundles of the files that can be read and decoded, in the order
    of the names. *)
Definition readable_bundles (w : World) (directory : string) (names : list string)
    : list value :=
  flat_map (fun name =>
              match json_load w directory name with
              | Return bundle => [bundle]
              | Raise _ => []
              end) names.

(** The uploader and the directory [main] works with. *)
Definition main_uploader (w : World) : FHIRUploader :=
  FHIRUploader_init (env_str (getenv w "HTTP_HOSTNAME")) (env_str (getenv w "HTTP_CLIENT_ID"))
    (env_str (getenv w "HTTP_CLIENT_SECRET")) 10 (S754_finite false 4503599627370496 (-53)).

Definition main_directory (w : World) : string :=
  getenv_default w "PROCESSED_FHIR_DIR" "./processed_fhir".

(** The three required variables are set and not empty. *)
Definition configured (w : World) : Prop :=
  exists hostname id secret,
    getenv w "HTTP_HOSTNAME" = Some hostname /\ hostname <> "" /\
    getenv w "HTTP_CLIENT_ID" = Some id /\ id <> "" /\
    getenv w "HTTP_CLIENT_SECRET" = Some secret /\ secret <> "".

(** The server answers the metadata request, after the requests [sent],
    with status 200 and a JSON object whose [software], when present, is
    an object. *)
Definition server_ready (w : World) (self : FHIRUploader) (sent : list http_request) : Prop :=
  exists response items software,
    session_send w sent (metadata_request self) = Return response /\
    status_code response = 200%Z /\
    json response = Return (VDict items) /\
    dict_get items "software" (VDict []) = VDict software.

Definition is_upload (self : FHIRUploader) (req : http_request) : Prop :=
  exists bundle, req = upload_request self bundle.

(** A computation only adds events to the trace, and only events that
    satisfy [E], whether it returns or raises. *)
Definition emits_only {A : Type} (E : event -> Prop) (m : Py A) : Prop :=
  forall tr, exists added, fst (m tr) = tr ++ added /\ Forall E added.

(** The only requests among the events are uploads of [self]. *)
Definition upload_event (self : FHIRUploader) (ev : event) : Prop :=
  match ev with
  | EvHttp req => is_upload self req
  | _ => True
  end.

(** The progress line printed after [done] files. *)
Definition progress_line (successful failed : nat) : list fragment :=
  [FStr "  Progress: "; FInt (Z.of_nat successful);
   FStr " successful, "; FInt (Z.of_nat failed); FStr " failed"].

Fixpoint progress_lines (tr : trace) : list (Z * Z) :=
  match tr with
  | [] => []
  | EvPrint [FStr label; FInt s; FStr _; FInt f; FStr _] _ :: rest =>
      if (label =? "  Progress: ")%string then (s, f) :: progress_lines rest
      else progress_lines rest
  | _ :: rest => progress_lines rest
  end.

(** ** Further sample runs *)

Module Scenario.

(** Uploaders that report progress after every second file, and with a
    batch size of zero. *)
Definition uploader_pairs : FHIRUploader :=
  FHIRUploader_init "fhir.example.com" "id" "secret" 2
    (S754_finite false 4503599627370496 (-53)).

Definition uploader_zero : FHIRUploader :=
  FHIRUploader_init "fhir.example.com" "id" "secret" 0
    (S754_finite false 4503599627370496 (-53)).

(** A directory whose bundles can all be read. *)
Definition world_clean : World :=
  mk_world Sample.env (fun _ => true) (fun _ => ["b.json"; "a.json"])
    Sample.files (fun _ _ => Return Sample.accepted) (fun _ => Return tt).

(** The input directory does not exist. *)
Definition world_no_directory : World :=
  mk_world Sample.env (fun _ => false) (fun _ => [])
    Sample.files (fun _ _ => Return Sample.accepted) (fun _ => Return tt).

(** A server that answers the search with a JSON list. *)
Definition patient_list : value := VList [Sample.patient_entry "p1"].

Definition list_page : http_response :=
  mk_response 200 "[...]" (Return patient_list).

Definition answer_search_with_list (sent : list http_request) (req : http_request)
    : pyresult http_response :=
  if (url req =? "https://fhir.example.com/fhir/R4/Patient")%string
  then Return list_page else Return Sample.accepted.

Definition world_list_search : World :=
  mk_world Sample.env (fun _ => true) (fun _ => ["b.json"; "a.json"])
    Sample.files answer_search_with_list (fun _ => Return tt).

End Scenario.

(** The events of the iteration of the loop on a file that cannot be
    decoded ([e] is the exception of [json.load]): the status line, the
    file opened by the counting block, the file opened again by
    [upload_bundle_file] and its error line, the cross, the progress line
    when it is due, and the pause. *)
Definition unreadable_iteration (self : FHIRUploader) (directory name : string)
    (idx : Z) (total_files : nat) (st : Stats) (e : exn) : list event :=
  [ EvPrint [FStr "["; FInt idx; FStr "/"; FInt (Z.of_nat total_files);
             FStr "] Uploading "; FStr name; FStr "..."] " ";
    EvOpen directory name;
    EvOpen directory name;
    EvPrint [FStr "  Error processing file "; FStr name; FStr ": "; FExn e] newline;
    EvPrint [FStr "✗"] newline ]
  ++ (if (idx mod batch_size self =? 0)%Z
      then [EvPrint (progress_line (successful (incr_failed st))
                       (failed (incr_failed st))) newline]
      else [])
  ++ [EvSleep (delay_seconds self)].

(** * Properties *)

(** ** The monad *)

Lemma bind_Return_inv {A B : Type} (m : Py A) (k : A -> Py B) tr tr' b :
  bind m k tr = (tr', Return b) ->
  exists a tr1, m tr = (tr1, Return a) /\ k a tr1 = (tr', Return b).
Proof.
  simpl. destruct (m tr) as [tr1 [a | e]]; intros H.
  - exists a, tr1. split; [reflexivity | exact H].
  - discriminate H.
Qed.

Lemma http_requests_app tr1 tr2 :
  http_requests (tr1 ++ tr2) = http_requests tr1 ++ http_requests tr2.
Proof.
  induction tr1 as [| ev tr1 IH]; simpl; [reflexivity |].
  destruct ev; simpl; rewrite IH; reflexivity.
Qed.

Lemma opened_files_app tr1 tr2 :
  opened_files (tr1 ++ tr2) = opened_files tr1 ++ opened_files tr2.
Proof.
  induction tr1 as [| ev tr1 IH]; simpl; [reflexivity |].
  destruct ev; simpl; rewrite IH; reflexivity.
Qed.

(** The scenario of three files: two uploads succeed, the unreadable file
    fails, and the two patients are counted. *)
Example sample_run_stats :
  snd (upload_directory Sample.world Sample.uploader Sample.directory [])
  = Return (mk_stats 3 2 1 2 0 0).
Proof. vm_compute. reflexivity. Qed.

Example sample_run_order :
  opened_files (fst (upload_directory Sample.world Sample.uploader Sample.directory []))
  = ["a.json"; "a.json"; "b.json"; "b.json"; "c.json"; "c.json"].
Proof. vm_compute. reflexivity. Qed.

(** ** Counting resources *)

Lemma count_type_fields resource_type st :
  let st' := count_type resource_type st in
  total st' = total st /\ successful st' = successful st /\ failed st' = failed st /\
  patients st' = patients st + (if eq_str resource_type "Patient" then 1 else 0) /\
  observations st' = observations st + (if eq_str resource_type "Observation" then 1 else 0) /\
  medications st' = medications st
                    + (if eq_str resource_type "MedicationStatement" then 1 else 0).
Proof.
  unfold count_type.
  destruct resource_type as [| b | z | f | s | l | d]; simpl;
    try (repeat split; lia).
  destruct (String.eqb_spec s "Patient") as [-> | _]; simpl; [repeat split; lia |].
  destruct (String.eqb_spec s "Observation") as [-> | _]; simpl; [repeat split; lia |].
  destruct (s =? "MedicationStatement")%string; simpl; repeat split; lia.
Qed.

Lemma counted_prefix_cons ty entry rest resource resource_type :
  py_getitem entry "resource" = Return resource ->
  py_get resource "resourceType" VNone = Return resource_type ->
  count_of ty (counted_prefix (entry :: rest))
  = (if eq_str resource_type ty then 1 else 0) + count_of ty (counted_prefix rest).
Proof.
  intros Hres Hty. unfold count_of. simpl. unfold well_formed.
  rewrite Hres, Hty. simpl. unfold entry_has_type at 1.
  rewrite Hres, Hty. destruct (eq_str resource_type ty); reflexivity.
Qed.

Lemma counted_prefix_stop ty entry rest :
  well_formed entry = false -> count_of ty (counted_prefix (entry :: rest)) = 0.
Proof. intros Hwf. unfold count_of. simpl. rewrite Hwf. reflexivity. Qed.

Lemma count_entries_fields entries : forall st,
  let st' := fst (count_entries entries st) in
  total st' = total st /\ successful st' = successful st /\ failed st' = failed st /\
  patients st' = patients st + count_of "Patient" (counted_prefix entries) /\
  observations st' = observations st + count_of "Observation" (counted_prefix entries) /\
  medications st' = medications st + count_of "MedicationStatement" (counted_prefix entries).
Proof.
  induction entries as [| entry rest IH]; intros st.
  - unfold count_of; simpl. repeat split; lia.
  - cbn [count_entries].
    destruct (py_getitem entry "resource") as [resource | e] eqn:Hres.
    2:{ assert (Hwf : well_formed entry = false) by (unfold well_formed; now rewrite Hres).
        rewrite !(counted_prefix_stop _ _ _ Hwf). simpl. repeat split; lia. }
    destruct (py_get resource "resourceType" VNone) as [resource_type | e] eqn:Hty.
    2:{ assert (Hwf : well_formed entry = false)
          by (unfold well_formed; now rewrite Hres, Hty).
        rewrite !(counted_prefix_stop _ _ _ Hwf). simpl. repeat split; lia. }
    rewrite !(counted_prefix_cons _ _ _ _ _ Hres Hty).
    specialize (IH (count_type resource_type st)). cbv zeta in IH.
    destruct IH as (Ht & Hs & Hf & Hp & Ho & Hm).
    destruct (count_type_fields resource_type st) as (Ht' & Hs' & Hf' & Hp' & Ho' & Hm').
    cbv zeta. repeat split; try congruence; lia.
Qed.

Lemma count_bundle_fields bundle st :
  let st' := fst (count_bundle bundle st) in
  let entries :=
    match py_get bundle "entry" (VList []) with
    | Return es => match py_iter es with Return items => items | Raise _ => [] end
    | Raise _ => []
    end in
  total st' = total st /\ successful st' = successful st /\ failed st' = failed st /\
  patients st' = patients st + count_of "Patient" (counted_prefix entries) /\
  observations st' = observations st + count_of "Observation" (counted_prefix entries) /\
  medications st' = medications st + count_of "MedicationStatement" (counted_prefix entries).
Proof.
  unfold count_bundle.
  destruct (py_get bundle "entry" (VList [])) as [es | e];
    [| unfold count_of; simpl; repeat split; lia].
  destruct (py_iter es) as [items | e];
    [| unfold count_of; simpl; repeat split; lia].
  apply count_entries_fields.
Qed.

(** What the guarded counting block does for one file. *)
Lemma count_resources_spec w directory name st tr :
  exists st',
    count_resources w directory name st tr = (tr ++ [EvOpen directory name], Return st') /\
    total st' = total st /\ successful st' = successful st /\ failed st' = failed st /\
    patients st' = patients st
      + count_of "Patient" (counted_prefix (file_entries w directory name)) /\
    observations st' = observations st
      + count_of "Observation" (counted_prefix (file_entries w directory name)) /\
    medications st' = medications st
      + count_of "MedicationStatement" (counted_prefix (file_entries w directory name)).
Proof.
  unfold count_resources, file_entries.
  destruct (json_load w directory name) as [bundle | e].
  - eexists. split; [reflexivity |]. apply count_bundle_fields.
  - exists st. split; [reflexivity |]. unfold count_of; simpl. repeat split; lia.
Qed.

(** ** Uploading one bundle *)

Lemma upload_ok_iff response :
  upload_ok response = true <-> (status_code response = 200 \/ status_code response = 201)%Z.
Proof.
  unfold upload_ok. rewrite orb_true_iff, !Z.eqb_eq. reflexivity.
Qed.

(** The four ways through [upload_bundle]. *)
Lemma upload_bundle_eq w self bundle tr :
  upload_bundle w self bundle tr =
  let sent := tr ++ [EvHttp (upload_request self bundle)] in
  match session_send w (http_requests tr) (upload_request self bundle) with
  | Raise e => (sent ++ [EvPrint [FStr "  Upload error: "; FExn e] newline], Return VNone)
  | Return response =>
      if upload_ok response then
        match json response with
        | Return body => (sent, Return body)
        | Raise e => (sent ++ [EvPrint [FStr "  Upload error: "; FExn e] newline], Return VNone)
        end
      else
        ((sent ++ [EvPrint [FStr "  Upload failed: "; FInt (status_code response)] newline])
           ++ [EvPrint [FStr "  Response: "; FStr (substring 0 500 (text response))] newline],
         Return VNone)
  end.
Proof.
  unfold upload_bundle, session_post, session_request, response_json, upload_ok.
  fold (upload_request self bundle). simpl.
  destruct (session_send w (http_requests tr) (upload_request self bundle))
    as [response | e]; [| reflexivity].
  destruct ((status_code response =? 200) || (status_code response =? 201))%Z; simpl;
    [| reflexivity].
  destruct (json response); reflexivity.
Qed.

Lemma upload_bundle_returns w self bundle tr :
  exists tr' v,
    upload_bundle w self bundle tr = (tr', Return v) /\
    opened_files tr' = opened_files tr /\
    http_requests tr' = http_requests tr ++ [upload_request self bundle].
Proof.
  rewrite upload_bundle_eq. cbv zeta.
  destruct (session_send w (http_requests tr) (upload_request self bundle))
    as [response | e].
  - destruct (upload_ok response); [destruct (json response) |];
      eexists; eexists; (split; [reflexivity |]);
      rewrite ?opened_files_app, ?http_requests_app; simpl;
      rewrite ?app_nil_r; split; reflexivity.
  - eexists; eexists; (split; [reflexivity |]).
    rewrite ?opened_files_app, ?http_requests_app; simpl.
    rewrite ?app_nil_r; split; reflexivity.
Qed.

(** [upload_bundle_file] on a file that cannot be read or decoded. *)
Lemma upload_bundle_file_unreadable w self directory name tr e :
  json_load w directory name = Raise e ->
  upload_bundle_file w self directory name tr
  = ((tr ++ [EvOpen directory name])
       ++ [EvPrint [FStr "  Error processing file "; FStr name; FStr ": "; FExn e] newline],
     Return false).
Proof.
  intros Hload. unfold upload_bundle_file, load_bundle. simpl. rewrite Hload. reflexivity.
Qed.

(** [upload_bundle_file] on a file that holds a bundle. *)
Lemma upload_bundle_file_readable w self directory name tr bundle :
  json_load w directory name = Return bundle ->
  exists tr' v,
    upload_bundle w self bundle (tr ++ [EvOpen directory name]) = (tr', Return v) /\
    upload_bundle_file w self directory name tr = (tr', Return (truthy v)).
Proof.
  intros Hload.
  destruct (upload_bundle_returns w self bundle (tr ++ [EvOpen directory name]))
    as (tr' & v & Hup & _).
  exists tr', v. split; [exact Hup |].
  unfold upload_bundle_file, load_bundle.
  cbn [try_except bind]. rewrite Hload, Hup.
  destruct (truthy v); reflexivity.
Qed.

Lemma upload_bundle_file_returns w self directory name tr :
  exists tr' ok,
    upload_bundle_file w self directory name tr = (tr', Return ok) /\
    opened_files tr' = opened_files tr ++ [name].
Proof.
  destruct (json_load w directory name) as [bundle | e] eqn:Hload.
  - destruct (upload_bundle_file_readable w self directory name tr bundle Hload)
      as (tr' & v & Hup & Hfile).
    exists tr', (truthy v). split; [exact Hfile |].
    destruct (upload_bundle_returns w self bundle (tr ++ [EvOpen directory name]))
      as (tr2 & v2 & Hup2 & Hopen & _).
    rewrite Hup in Hup2. injection Hup2 as <- <-.
    rewrite Hopen, opened_files_app. reflexivity.
  - rewrite (upload_bundle_file_unreadable _ _ _ _ _ _ Hload).
    eexists; eexists; split; [reflexivity |].
    rewrite !opened_files_app. simpl. rewrite app_nil_r. reflexivity.
Qed.

(** ** The loop over the bundle files *)

(** One step of inversion of a run that returned. *)
Ltac invert_bind H x tr1 Hx :=
  apply bind_Return_inv in H; destruct H as (x & tr1 & Hx & H).

Lemma py_mod_Return a b tr tr' r :
  py_mod a b tr = (tr', Return r) -> tr' = tr /\ b <> 0%Z.
Proof.
  unfold py_mod. destruct (Z.eqb_spec b 0) as [-> | Hb]; simpl; intros H.
  - discriminate H.
  - injection H as <- _. split; [reflexivity | exact Hb].
Qed.

(** Invariant of the loop, for a run that returns: the tallies, the
    counters and the files opened. *)
Lemma upload_loop_spec w self directory bundle_files :
  forall idx total_files st tr tr' st',
    upload_loop w self directory bundle_files idx total_files st tr = (tr', Return st') ->
    total st' = total st /\
    successful st' + failed st' = successful st + failed st + List.length bundle_files /\
    patients st' = patients st + counted_entries w directory "Patient" bundle_files /\
    observations st' = observations st
      + counted_entries w directory "Observation" bundle_files /\
    medications st' = medications st
      + counted_entries w directory "MedicationStatement" bundle_files /\
    opened_files tr' = opened_files tr ++ twice bundle_files.
Proof.
  induction bundle_files as [| name rest IH]; intros idx total_files st tr tr' st' Hrun.
  - simpl in Hrun. injection Hrun as <- <-.
    unfold counted_entries; simpl. rewrite app_nil_r. repeat split; lia.
  - cbn [upload_loop] in Hrun.
    invert_bind Hrun u0 tr0 Hprint. simpl in Hprint. injection Hprint as <- _.
    invert_bind Hrun st1 tr1 Hcount.
    destruct (count_resources_spec w directory name st
                (tr ++ [EvPrint [FStr "["; FInt idx; FStr "/"; FInt (Z.of_nat total_files);
                                 FStr "] Uploading "; FStr name; FStr "..."] " "]))
      as (st1' & Hcount' & Ht1 & Hs1 & Hf1 & Hp1 & Ho1 & Hm1).
    rewrite Hcount' in Hcount. injection Hcount as <- <-.
    invert_bind Hrun success tr2 Hfile.
    match type of Hfile with
    | upload_bundle_file _ _ _ _ ?t = _ =>
        destruct (upload_bundle_file_returns w self directory name t)
          as (tr2' & ok & Hfile' & Hopen2)
    end.
    rewrite Hfile' in Hfile. injection Hfile as <- <-.
    invert_bind Hrun st2 tr3 Hclass.
    assert (Hst2 : tr3 = tr2' ++ [EvPrint [FStr (if ok then "✓" else "✗")] newline] /\
                   st2 = if ok then incr_successful st1' else incr_failed st1').
    { destruct ok; simpl in Hclass; injection Hclass as <- <-; split; reflexivity. }
    destruct Hst2 as [-> ->].
    invert_bind Hrun r tr4 Hmod. apply py_mod_Return in Hmod as [-> _].
    invert_bind Hrun u1 tr5 Hprog.
    assert (Hopen5 : opened_files tr5
                     = opened_files (tr2' ++ [EvPrint [FStr (if ok then "✓" else "✗")] newline])).
    { destruct (r =? 0)%Z; simpl in Hprog; injection Hprog as <- _;
        rewrite ?opened_files_app; simpl; rewrite ?app_nil_r; reflexivity. }
    invert_bind Hrun u2 tr6 Hsleep. unfold sleep in Hsleep. injection Hsleep as <- _.
    apply IH in Hrun. destruct Hrun as (Ht & Hsf & Hp & Ho & Hm & Hopen).
    unfold counted_entries in *. cbn [map list_sum twice flat_map].
    fold (twice rest).
    repeat split.
    + destruct ok; simpl in *; lia.
    + destruct ok; simpl in *; lia.
    + destruct ok; simpl in *; lia.
    + destruct ok; simpl in *; lia.
    + destruct ok; simpl in *; lia.
    + rewrite Hopen, opened_files_app, Hopen5, opened_files_app, Hopen2.
      rewrite !opened_files_app. simpl. rewrite !app_nil_r, <- !app_assoc. reflexivity.
Qed.

(** ** Scanning the directory *)

Lemma compare_trans_le : forall s t u,
  String.compare s t <> Gt -> String.compare t u <> Gt -> String.compare s u <> Gt.
Proof.
  induction s as [| a s IH]; intros t u Hst Htu.
  - destruct u; simpl; discriminate.
  - destruct t as [| b t]; [simpl in Hst; congruence |].
    destruct u as [| c u]; [simpl in Htu; congruence |].
    simpl in *. unfold Ascii.compare in *.
    destruct (N.compare_spec (N_of_ascii a) (N_of_ascii b)) as [Hab | Hab | Hab];
      destruct (N.compare_spec (N_of_ascii b) (N_of_ascii c)) as [Hbc | Hbc | Hbc];
      destruct (N.compare_spec (N_of_ascii a) (N_of_ascii c)) as [Hac | Hac | Hac];
      try congruence; try lia.
    now apply (IH t u).
Qed.

Lemma name_le_trans a b c : name_le a b -> name_le b c -> name_le a c.
Proof.
  unfold name_le, String.leb. intros Hab Hbc.
  pose proof (compare_trans_le a b c) as H.
  destruct (String.compare a b); try discriminate;
    destruct (String.compare b c); try discriminate;
    destruct (String.compare a c); try reflexivity;
    exfalso; apply H; congruence.
Qed.

Lemma insert_sorted_perm x l : Permutation (insert_sorted x l) (x :: l).
Proof.
  induction l as [| y rest IH]; simpl; [reflexivity |].
  destruct (String.leb x y); [reflexivity |].
  rewrite IH. apply perm_swap.
Qed.

Lemma sorted_perm l : Permutation (sorted l) l.
Proof.
  induction l as [| x rest IH]; simpl; [reflexivity |].
  rewrite insert_sorted_perm. now constructor.
Qed.

Lemma insert_sorted_ordered x l :
  StronglySorted name_le l -> StronglySorted name_le (insert_sorted x l).
Proof.
  induction 1 as [| y rest Hrest IH Hall]; simpl.
  - constructor; constructor.
  - destruct (String.leb x y) eqn:Hxy.
    + constructor; [constructor; assumption |].
      constructor; [exact Hxy |].
      eapply Forall_impl; [| exact Hall].
      intros z Hz. eapply name_le_trans; eassumption.
    + constructor; [exact IH |].
      eapply Permutation_Forall; [symmetry; apply insert_sorted_perm |].
      constructor; [| exact Hall].
      destruct (String.leb_total x y) as [H | H]; [congruence | exact H].
Qed.

Lemma sorted_ordered l : StronglySorted name_le (sorted l).
Proof.
  induction l as [| x rest IH]; simpl; [constructor |].
  now apply insert_sorted_ordered.
Qed.

(** Two ordered lists with the same elements are the same list. *)
Lemma ordered_perm_eq : forall l1 l2,
  StronglySorted name_le l1 -> StronglySorted name_le l2 -> Permutation l1 l2 -> l1 = l2.
Proof.
  induction l1 as [| a l1 IH]; intros l2 H1 H2 Hperm.
  - apply Permutation_nil in Hperm. now subst.
  - destruct l2 as [| b l2].
    + symmetry in Hperm. apply Permutation_nil in Hperm. discriminate.
    + apply StronglySorted_inv in H1 as [H1 Ha].
      apply StronglySorted_inv in H2 as [H2 Hb].
      assert (Hab : a = b).
      { assert (Hin_a : In a (b :: l2))
          by (eapply Permutation_in; [exact Hperm | now left]).
        assert (Hin_b : In b (a :: l1))
          by (eapply Permutation_in; [symmetry; exact Hperm | now left]).
        destruct Hin_a as [-> | Hin_a]; [reflexivity |].
        destruct Hin_b as [-> | Hin_b]; [reflexivity |].
        rewrite Forall_forall in Ha, Hb.
        apply String.leb_antisym; [apply Ha, Hin_b | apply Hb, Hin_a]. }
      subst b. f_equal. apply IH; try assumption.
      eapply Permutation_cons_inv; exact Hperm.
Qed.

Lemma filter_perm (f : string -> bool) l1 l2 :
  Permutation l1 l2 -> Permutation (filter f l1) (filter f l2).
Proof.
  induction 1 as [| x l l' _ IH | x y l | l l' l'' _ IH1 _ IH2]; simpl.
  - constructor.
  - destruct (f x); [now constructor | exact IH].
  - destruct (f x), (f y); try reflexivity. apply perm_swap.
  - now rewrite IH1.
Qed.

Lemma substring_split : forall s k,
  k <= String.length s ->
  s = String.append (substring 0 k s) (substring k (String.length s - k) s).
Proof.
  induction s as [| c s IH]; intros k Hk.
  - destruct k; reflexivity.
  - destruct k as [| k].
    + simpl. f_equal.
      clear. induction s as [| d s IH]; simpl; [reflexivity | now f_equal].
    + simpl in *. f_equal. apply IH. lia.
Qed.

Lemma substring_suffix : forall stem suffix,
  substring (String.length stem) (String.length suffix) (String.append stem suffix) = suffix.
Proof.
  induction stem as [| c stem IH]; intros suffix; simpl.
  - induction suffix as [| d suffix IH]; simpl; [reflexivity | now f_equal].
  - apply IH.
Qed.

Lemma length_append : forall s t,
  String.length (String.append s t) = String.length s + String.length t.
Proof.
  induction s as [| c s IH]; intros t; simpl; [reflexivity | now rewrite IH].
Qed.

(** [glob_json] accepts exactly the names that end with [.json]. *)
Lemma glob_json_iff name :
  glob_json name = true <-> exists stem, name = String.append stem ".json".
Proof.
  unfold glob_json. rewrite andb_true_iff, Nat.leb_le, String.eqb_eq. split.
  - intros [Hlen Hsuf].
    exists (substring 0 (String.length name - 5) name).
    pose proof (substring_split name (String.length name - 5)) as Hsplit.
    replace (String.length name - (String.length name - 5)) with 5 in Hsplit by lia.
    rewrite Hsuf in Hsplit. apply Hsplit. lia.
  - intros [stem ->]. rewrite length_append. simpl String.length. split; [lia |].
    replace (String.length stem + 5 - 5) with (String.length stem) by lia.
    apply (substring_suffix stem ".json").
Qed.

(** ** A whole batch *)

Lemma sorted_length l : List.length (sorted l) = List.length l.
Proof. apply Permutation_length, sorted_perm. Qed.

(** With a batch size that is not zero and a pause that returns, the loop
    runs to its end. *)
Lemma upload_loop_returns w self directory :
  batch_size self <> 0%Z ->
  time_sleep w (delay_seconds self) = Return tt ->
  forall bundle_files idx total_files st tr,
  exists tr' st',
    upload_loop w self directory bundle_files idx total_files st tr = (tr', Return st').
Proof.
  intros Hbatch Hsleep.
  induction bundle_files as [| name rest IH]; intros idx total_files st tr.
  - simpl. eexists; eexists; reflexivity.
  - cbn [upload_loop bind print_end emit].
    match goal with
    | |- context [count_resources w directory name st ?t] =>
        destruct (count_resources_spec w directory name st t) as (st1 & -> & _)
    end.
    match goal with
    | |- context [upload_bundle_file w self directory name ?t] =>
        destruct (upload_bundle_file_returns w self directory name t)
          as (tr2 & ok & -> & _)
    end.
    unfold py_mod.
    destruct (Z.eqb_spec (batch_size self) 0) as [Hz | _]; [contradiction |].
    unfold sleep.
    destruct ok; cbn [bind print emit ret];
      destruct (idx mod batch_size self =? 0)%Z; cbn [bind print emit ret];
      rewrite Hsleep; apply IH.
Qed.

(** A batch over a directory with at least one bundle returns its
    statistics. *)
Lemma upload_directory_returns w self directory tr :
  filter glob_json (listdir w directory) <> [] ->
  batch_size self <> 0%Z ->
  time_sleep w (delay_seconds self) = Return tt ->
  exists tr' st, upload_directory w self directory tr = (tr', Return st).
Proof.
  intros Hfiles Hbatch Hsleep. unfold upload_directory. cbv zeta.
  cbn [bind print emit].
  match goal with
  | |- context [upload_loop w self directory ?fs ?i ?n ?s ?t] =>
      destruct (upload_loop_returns w self directory Hbatch Hsleep fs i n s t)
        as (tr2 & st2 & Hloop)
  end.
  rewrite Hloop.
  apply upload_loop_spec in Hloop as (Htotal & _). simpl in Htotal.
  unfold py_percent.
  destruct (Nat.eqb_spec (total st2) 0) as [Hz | _].
  - exfalso. apply Hfiles. rewrite Htotal in Hz. unfold bundle_files_of in Hz.
    rewrite sorted_length in Hz. now apply length_zero_iff_nil.
  - cbn [bind print emit ret]. eexists; eexists; reflexivity.
Qed.

Ltac step_print H :=
  let u := fresh "u" in
  let t := fresh "t" in
  let Hp := fresh "Hp" in
  invert_bind H u t Hp; simpl in Hp; injection Hp as <- _.

(** A batch that returns went through the loop and found at least one
    bundle. *)
Lemma upload_directory_Return w self directory tr tr' st :
  upload_directory w self directory tr = (tr', Return st) ->
  exists tr1 tr2,
    upload_loop w self directory (bundle_files_of w directory) 1
      (List.length (bundle_files_of w directory))
      (mk_stats (List.length (bundle_files_of w directory)) 0 0 0 0 0) tr1
    = (tr2, Return st) /\
    opened_files tr1 = opened_files tr /\
    opened_files tr' = opened_files tr2 /\
    total st <> 0.
Proof.
  unfold upload_directory. cbv zeta. intros Hrun.
  do 2 step_print Hrun.
  invert_bind Hrun st0 tr2 Hloop.
  do 3 step_print Hrun.
  invert_bind Hrun pct tr3 Hpct.
  unfold py_percent in Hpct.
  destruct (Nat.eqb_spec (total st0) 0) as [Hz | Hnz]; simpl in Hpct; [discriminate |].
  injection Hpct as <- <-.
  do 6 step_print Hrun.
  simpl in Hrun. injection Hrun as <- <-.
  eexists; eexists. split; [exact Hloop |].
  repeat split.
  - rewrite !opened_files_app. simpl. now rewrite !app_nil_r.
  - rewrite !opened_files_app. simpl. now rewrite !app_nil_r.
  - exact Hnz.
Qed.


(** C1. For every batch that completes, the returned statistics satisfy
    [total = successful + failed], and [total] is the number of [*.json]
    files found when the directory was scanned. *)
Theorem upload_directory_tally w self directory tr tr' st :
  upload_directory w self directory tr = (tr', Return st) ->
  total st = successful st + failed st /\
  total st = List.length (filter glob_json (listdir w directory)).
Proof.
  intros Hrun.
  apply upload_directory_Return in Hrun as (tr1 & tr2 & Hloop & _).
  apply upload_loop_spec in Hloop as (Ht & Hsf & _).
  simpl in Ht, Hsf. unfold bundle_files_of in *. rewrite sorted_length in *.
  split; lia.
Qed.

Lemma upload_directory_tally_witness :
  total (mk_stats 3 2 1 2 0 0) = successful (mk_stats 3 2 1 2 0 0) + failed (mk_stats 3 2 1 2 0 0) /\
  total (mk_stats 3 2 1 2 0 0)
  = List.length (filter glob_json (listdir Sample.world Sample.directory)).
Proof.
  apply (upload_directory_tally Sample.world Sample.uploader Sample.directory []
           (fst (upload_directory Sample.world Sample.uploader Sample.directory []))).
  vm_compute. reflexivity.
Defined.

Lemma counted_prefix_all entries :
  forallb well_formed entries = true -> counted_prefix entries = entries.
Proof.
  induction entries as [| entry rest IH]; simpl; [reflexivity |].
  rewrite andb_true_iff. intros [-> Hrest]. now rewrite IH.
Qed.

Lemma counted_entries_all w directory ty names :
  (forall name, In name names ->
     forallb well_formed (file_entries w directory name) = true) ->
  counted_entries w directory ty names = matching_entries w directory ty names.
Proof.
  unfold counted_entries, matching_entries.
  induction names as [| name rest IH]; intros Hwf; simpl; [reflexivity |].
  rewrite counted_prefix_all by (apply Hwf; now left).
  rewrite IH; [reflexivity |]. intros n Hn. apply Hwf. now right.
Qed.

Lemma counted_entries_same_files w1 w2 directory ty names :
  json_load w2 = json_load w1 ->
  counted_entries w2 directory ty names = counted_entries w1 directory ty names.
Proof.
  intros Hload. unfold counted_entries, file_entries. now rewrite Hload.
Qed.

(** C2 (as the code has it).  For every batch that completes, each of the
    counters [patients], [observations] and [medications] is the number of
    entries of type [Patient], [Observation] and [MedicationStatement]
    that stand in front of the first malformed entry of their file, summed
    over the files of the directory.  When no file has a malformed entry
    this is the number of all entries of that type.  The counters depend
    on the files only: two batches over the same files return the same
    counters whatever the server answers. *)
Theorem resource_counters w self directory tr tr' st :
  upload_directory w self directory tr = (tr', Return st) ->
  (patients st = counted_entries w directory "Patient" (bundle_files_of w directory) /\
   observations st = counted_entries w directory "Observation" (bundle_files_of w directory) /\
   medications st
   = counted_entries w directory "MedicationStatement" (bundle_files_of w directory)) /\
  ((forall name, In name (bundle_files_of w directory) ->
      forallb well_formed (file_entries w directory name) = true) ->
   patients st = matching_entries w directory "Patient" (bundle_files_of w directory) /\
   observations st = matching_entries w directory "Observation" (bundle_files_of w directory) /\
   medications st
   = matching_entries w directory "MedicationStatement" (bundle_files_of w directory)) /\
  (forall w2 self2 tr2 tr2' st2,
      listdir w2 = listdir w -> json_load w2 = json_load w ->
      upload_directory w2 self2 directory tr2 = (tr2', Return st2) ->
      patients st2 = patients st /\ observations st2 = observations st /\
      medications st2 = medications st).
Proof.
  intros Hrun.
  apply upload_directory_Return in Hrun as (tr1 & tr3 & Hloop & _).
  apply upload_loop_spec in Hloop as (_ & _ & Hp & Ho & Hm & _).
  simpl in Hp, Ho, Hm.
  split; [auto |]. split.
  - intros Hwf. rewrite <- !(counted_entries_all w directory _ _ Hwf). auto.
  - intros w2 self2 tr2 tr2' st2 Hdir Hload Hrun2.
    apply upload_directory_Return in Hrun2 as (tr4 & tr5 & Hloop2 & _).
    apply upload_loop_spec in Hloop2 as (_ & _ & Hp2 & Ho2 & Hm2 & _).
    simpl in Hp2, Ho2, Hm2.
    unfold bundle_files_of in *. rewrite Hdir in *.
    rewrite !(counted_entries_same_files w w2) in * by exact Hload.
    repeat split; congruence.
Qed.

Lemma resource_counters_witness :
  patients (mk_stats 3 2 1 2 0 0)
  = counted_entries Sample.world Sample.directory "Patient"
      (bundle_files_of Sample.world Sample.directory).
Proof.
  refine (proj1 (proj1 (resource_counters Sample.world Sample.uploader Sample.directory []
           (fst (upload_directory Sample.world Sample.uploader Sample.directory []))
           (mk_stats 3 2 1 2 0 0) _))).
  vm_compute. reflexivity.
Defined.

(** C2, as stated, fails: in a bundle whose first entry is [null] and
    whose second entry is a patient, the patient is not counted. *)
Lemma malformed_entry_stops_count :
  ~ (forall tr' st,
        upload_directory Sample.world_malformed Sample.uploader Sample.directory []
        = (tr', Return st) ->
        patients st
        = matching_entries Sample.world_malformed Sample.directory "Patient"
            (bundle_files_of Sample.world_malformed Sample.directory)).
Proof.
  intros Hclaim.
  specialize (Hclaim
    (fst (upload_directory Sample.world_malformed Sample.uploader Sample.directory []))
    (mk_stats 1 1 0 0 0 0)).
  assert (Hrun : upload_directory Sample.world_malformed Sample.uploader Sample.directory []
                 = (fst (upload_directory Sample.world_malformed Sample.uploader
                           Sample.directory []),
                    Return (mk_stats 1 1 0 0 0 0)))
    by (vm_compute; reflexivity).
  apply Hclaim in Hrun. vm_compute in Hrun. discriminate Hrun.
Qed.

(** C3 (defect of the code).  With no [*.json] file in the directory the
    summary divides by [total = 0]: [upload_directory] raises
    [ZeroDivisionError] and returns no statistics. *)
Theorem empty_directory_raises w self directory tr :
  filter glob_json (listdir w directory) = [] ->
  exists tr',
    upload_directory w self directory tr
    = (tr', Raise (mk_exn ZeroDivisionError "division by zero")).
Proof.
  intros Hempty. unfold upload_directory, bundle_files_of. rewrite Hempty.
  simpl. eexists. reflexivity.
Qed.

Lemma empty_directory_raises_witness :
  exists tr',
    upload_directory Sample.world_empty Sample.uploader Sample.directory []
    = (tr', Raise (mk_exn ZeroDivisionError "division by zero")).
Proof.
  apply (empty_directory_raises Sample.world_empty Sample.uploader Sample.directory []).
  reflexivity.
Defined.

(** C7. [upload_directory] works on exactly the names of the directory
    that end with [.json], in lexicographic order; the order does not
    depend on the order in which the directory lists its entries, and a
    batch that completes has opened these files (each of them twice, to
    count and to upload) in that order. *)
Theorem scan_order w self directory :
  Permutation (bundle_files_of w directory) (filter glob_json (listdir w directory)) /\
  (forall name,
      In name (bundle_files_of w directory) <->
      In name (listdir w directory) /\ exists stem, name = String.append stem ".json") /\
  StronglySorted name_le (bundle_files_of w directory) /\
  (forall w2,
      Permutation (listdir w2 directory) (listdir w directory) ->
      bundle_files_of w2 directory = bundle_files_of w directory) /\
  (forall tr tr' st,
      upload_directory w self directory tr = (tr', Return st) ->
      opened_files tr' = opened_files tr ++ twice (bundle_files_of w directory)).
Proof.
  unfold bundle_files_of. split; [| split; [| split; [| split]]].
  - apply sorted_perm.
  - intros name. rewrite <- glob_json_iff, <- filter_In. split; intros Hin.
    + exact (Permutation_in _ (sorted_perm _) Hin).
    + exact (Permutation_in _ (Permutation_sym (sorted_perm _)) Hin).
  - apply sorted_ordered.
  - intros w2 Hperm. apply ordered_perm_eq; try apply sorted_ordered.
    rewrite !sorted_perm. now apply filter_perm.
  - intros tr tr' st Hrun.
    apply upload_directory_Return in Hrun as (tr1 & tr2 & Hloop & H1 & H2 & _).
    apply upload_loop_spec in Hloop as (_ & _ & _ & _ & _ & Hopen).
    unfold bundle_files_of in Hopen. congruence.
Qed.

Lemma scan_order_witness :
  opened_files (fst (upload_directory Sample.world Sample.uploader Sample.directory []))
  = opened_files [] ++ twice (bundle_files_of Sample.world Sample.directory).
Proof.
  refine (proj2 (proj2 (proj2 (proj2
            (scan_order Sample.world Sample.uploader Sample.directory))))
            [] _ (mk_stats 3 2 1 2 0 0) _).
  vm_compute. reflexivity.
Defined.

(** ** Outcomes of one upload *)

Lemma printed_app tr1 tr2 : printed (tr1 ++ tr2) = printed tr1 ++ printed tr2.
Proof.
  induction tr1 as [| ev tr1 IH]; simpl; [reflexivity |].
  destruct ev; simpl; rewrite IH; reflexivity.
Qed.

Lemma truncate_length : forall n s, String.length (substring 0 n s) <= n.
Proof.
  induction n as [| n IH]; intros s; destruct s as [| c s]; simpl; try lia.
  specialize (IH s). lia.
Qed.

Lemma truncate_prefix : forall n s, String.prefix (substring 0 n s) s = true.
Proof.
  induction n as [| n IH]; intros s; destruct s as [| c s]; simpl; try reflexivity.
  destruct (ascii_dec c c) as [_ | Hneq]; [apply IH | now elim Hneq].
Qed.

(** C4 (as the code has it).  [upload_bundle] never raises.  It returns
    the parsed body of the response when the status is 200 or 201 and the
    body parses.  For every other status it prints the status code and
    the first 500 characters of the response text and returns [None]; for
    a transport failure it prints the exception and returns [None].
    [upload_bundle_file] always returns a boolean, so that no outcome of
    an upload ends the batch. *)
Theorem upload_bundle_outcome w self bundle tr :
  (exists v, snd (upload_bundle w self bundle tr) = Return v) /\
  (forall response body,
      session_send w (http_requests tr) (upload_request self bundle) = Return response ->
      (status_code response = 200 \/ status_code response = 201)%Z ->
      json response = Return body ->
      upload_bundle w self bundle tr
      = (tr ++ [EvHttp (upload_request self bundle)], Return body)) /\
  (forall response,
      session_send w (http_requests tr) (upload_request self bundle) = Return response ->
      ~ (status_code response = 200 \/ status_code response = 201)%Z ->
      snd (upload_bundle w self bundle tr) = Return VNone /\
      printed (fst (upload_bundle w self bundle tr))
      = printed tr ++ [ [FStr "  Upload failed: "; FInt (status_code response)];
                        [FStr "  Response: "; FStr (substring 0 500 (text response))] ] /\
      String.length (substring 0 500 (text response)) <= 500 /\
      String.prefix (substring 0 500 (text response)) (text response) = true) /\
  (forall e,
      session_send w (http_requests tr) (upload_request self bundle) = Raise e ->
      snd (upload_bundle w self bundle tr) = Return VNone /\
      printed (fst (upload_bundle w self bundle tr))
      = printed tr ++ [ [FStr "  Upload error: "; FExn e] ]) /\
  (forall directory name tr0,
      exists ok, snd (upload_bundle_file w self directory name tr0) = Return ok).
Proof.
  split; [| split; [| split; [| split]]].
  - destruct (upload_bundle_returns w self bundle tr) as (tr' & v & Hrun & _).
    exists v. now rewrite Hrun.
  - intros response body Hsend Hstatus Hjson.
    rewrite upload_bundle_eq. cbv zeta. rewrite Hsend.
    apply upload_ok_iff in Hstatus. now rewrite Hstatus, Hjson.
  - intros response Hsend Hstatus.
    rewrite upload_bundle_eq. cbv zeta. rewrite Hsend.
    destruct (upload_ok response) eqn:Hok; [apply upload_ok_iff in Hok; contradiction |].
    cbn [fst snd]. split; [reflexivity |]. split.
    + rewrite !printed_app. simpl. rewrite app_nil_r, <- app_assoc. reflexivity.
    + split; [apply truncate_length | apply truncate_prefix].
  - intros e Hsend. rewrite upload_bundle_eq. cbv zeta. rewrite Hsend.
    cbn [fst snd]. split; [reflexivity |].
    rewrite !printed_app. simpl. rewrite app_nil_r. reflexivity.
  - intros directory name tr0.
    destruct (upload_bundle_file_returns w self directory name tr0) as (tr' & ok & Hrun & _).
    exists ok. now rewrite Hrun.
Qed.

Lemma upload_bundle_outcome_witness :
  snd (upload_bundle Sample.world_unreachable Sample.uploader Sample.two_patients [])
  = Return VNone /\
  printed (fst (upload_bundle Sample.world_unreachable Sample.uploader Sample.two_patients []))
  = printed [] ++ [ [FStr "  Upload error: "; FExn Sample.unreachable] ].
Proof.
  refine (proj1 (proj2 (proj2 (proj2
            (upload_bundle_outcome Sample.world_unreachable Sample.uploader
               Sample.two_patients [])))) Sample.unreachable _).
  reflexivity.
Defined.

(** C4, as stated, fails: a response with status 200 whose body is not
    JSON gives no parsed body; [upload_bundle] returns [None]. *)
Lemma success_status_without_body :
  ~ body_iff_success_status Sample.world_html Sample.uploader Sample.two_patients [].
Proof.
  intros Hclaim.
  destruct (proj1 (Hclaim Sample.html_page eq_refl)) as (body & Hjson & _).
  - left. reflexivity.
  - discriminate Hjson.
Qed.

(** C9. When the server answers an upload with status 200 or 201 and a
    body that is not valid JSON, parsing the body raises inside the
    guarded block: [upload_bundle] prints the error and returns [None],
    and [upload_bundle_file] reports the file as failed. *)
Theorem success_status_unparsable_body w self bundle tr response e :
  session_send w (http_requests tr) (upload_request self bundle) = Return response ->
  (status_code response = 200 \/ status_code response = 201)%Z ->
  json response = Raise e ->
  upload_bundle w self bundle tr
  = ((tr ++ [EvHttp (upload_request self bundle)])
       ++ [EvPrint [FStr "  Upload error: "; FExn e] newline],
     Return VNone) /\
  (forall directory name,
      json_load w directory name = Return bundle ->
      snd (upload_bundle_file w self directory name tr) = Return false).
Proof.
  intros Hsend Hstatus Hjson. apply upload_ok_iff in Hstatus. split.
  - rewrite upload_bundle_eq. cbv zeta. now rewrite Hsend, Hstatus, Hjson.
  - intros directory name Hload.
    destruct (upload_bundle_file_readable w self directory name tr bundle Hload)
      as (tr' & v & Hup & Hfile).
    rewrite upload_bundle_eq in Hup. cbv zeta in Hup.
    rewrite http_requests_app in Hup. simpl in Hup. rewrite app_nil_r in Hup.
    rewrite Hsend, Hstatus, Hjson in Hup. injection Hup as <- <-.
    now rewrite Hfile.
Qed.

Lemma success_status_unparsable_body_witness :
  upload_bundle Sample.world_html Sample.uploader Sample.two_patients []
  = (([] ++ [EvHttp (upload_request Sample.uploader Sample.two_patients)])
       ++ [EvPrint [FStr "  Upload error: "; FExn Sample.not_json] newline],
     Return VNone) /\
  (forall directory name,
      json_load Sample.world_html directory name = Return Sample.two_patients ->
      snd (upload_bundle_file Sample.world_html Sample.uploader directory name [])
      = Return false).
Proof.
  apply (success_status_unparsable_body Sample.world_html Sample.uploader
           Sample.two_patients [] Sample.html_page Sample.not_json).
  - reflexivity.
  - left. reflexivity.
  - reflexivity.
Defined.

(** ** Configuration *)

Lemma report_missing_env_eq tr :
  exists lines,
    report_missing_env tr = (tr ++ lines, Return tt) /\
    http_requests lines = [] /\ opened_files lines = [].
Proof.
  unfold report_missing_env. simpl. rewrite <- !app_assoc. simpl.
  eexists. split; [reflexivity |]. split; reflexivity.
Qed.

Lemma main_config_error w tr :
  py_all [getenv w "HTTP_HOSTNAME"; getenv w "HTTP_CLIENT_ID"; getenv w "HTTP_CLIENT_SECRET"]
  = false ->
  main w tr = report_missing_env tr.
Proof. intros Hall. unfold main. cbv zeta. rewrite Hall. reflexivity. Qed.

Lemma py_all_false_of a b c :
  env_truthy a = false \/ env_truthy b = false \/ env_truthy c = false ->
  py_all [a; b; c] = false.
Proof.
  unfold py_all. simpl. intros [-> | [-> | ->]];
    rewrite ?andb_false_r; reflexivity.
Qed.

Lemma main_aborts w tr :
  py_all [getenv w "HTTP_HOSTNAME"; getenv w "HTTP_CLIENT_ID"; getenv w "HTTP_CLIENT_SECRET"]
  = false ->
  main w tr = report_missing_env tr /\
  snd (main w tr) = Return tt /\
  http_requests (fst (main w tr)) = http_requests tr /\
  opened_files (fst (main w tr)) = opened_files tr.
Proof.
  intros Hall. rewrite (main_config_error w tr Hall).
  destruct (report_missing_env_eq tr) as (lines & -> & Hhttp & Hopen).
  cbn [fst snd]. rewrite http_requests_app, opened_files_app, Hhttp, Hopen, !app_nil_r.
  repeat split.
Qed.

(** C6. When one of [HTTP_HOSTNAME], [HTTP_CLIENT_ID] and
    [HTTP_CLIENT_SECRET] is missing, [main] prints the configuration
    error and returns: no HTTP request is sent (no connection test, no
    upload, no search) and no bundle is opened. *)
Theorem missing_variable_aborts w tr :
  missing_required w ->
  main w tr = report_missing_env tr /\
  snd (main w tr) = Return tt /\
  http_requests (fst (main w tr)) = http_requests tr /\
  opened_files (fst (main w tr)) = opened_files tr.
Proof.
  intros Hmissing. apply main_aborts, py_all_false_of.
  destruct Hmissing as [-> | [-> | ->]]; simpl; tauto.
Qed.

Lemma missing_variable_aborts_witness :
  main Sample.world_no_secret [] = report_missing_env [] /\
  snd (main Sample.world_no_secret []) = Return tt /\
  http_requests (fst (main Sample.world_no_secret [])) = http_requests [] /\
  opened_files (fst (main Sample.world_no_secret [])) = opened_files [].
Proof.
  apply (missing_variable_aborts Sample.world_no_secret []).
  right. right. reflexivity.
Defined.

(** C10. A required variable set to the empty string is treated like a
    missing one: [main] takes the same way out, printing the same
    configuration error, before any uploader is built and without any
    HTTP request. *)
Theorem empty_variable_aborts w tr :
  empty_required w ->
  main w tr = report_missing_env tr /\
  snd (main w tr) = Return tt /\
  http_requests (fst (main w tr)) = http_requests tr /\
  opened_files (fst (main w tr)) = opened_files tr.
Proof.
  intros Hempty. apply main_aborts, py_all_false_of.
  destruct Hempty as [-> | [-> | ->]]; simpl; tauto.
Qed.

Lemma empty_variable_aborts_witness :
  main Sample.world_empty_secret [] = report_missing_env [] /\
  snd (main Sample.world_empty_secret []) = Return tt /\
  http_requests (fst (main Sample.world_empty_secret [])) = http_requests [] /\
  opened_files (fst (main Sample.world_empty_secret [])) = opened_files [].
Proof.
  apply (empty_variable_aborts Sample.world_empty_secret []).
  right. right. reflexivity.
Defined.

(** With the three variables set and not empty, [main] goes on to the
    connection test: the first event after the announcement is the
    metadata request. *)
Example configured_main_connects :
  http_requests (fst (main Sample.world []))
  <> [].
Proof. vm_compute. discriminate. Qed.

(** * Further properties *)

(** ** One iteration of the loop *)

Lemma sleeps_app tr1 tr2 : sleeps (tr1 ++ tr2) = sleeps tr1 ++ sleeps tr2.
Proof.
  induction tr1 as [| ev tr1 IH]; simpl; [reflexivity |].
  destruct ev; simpl; rewrite IH; reflexivity.
Qed.

Lemma progress_lines_app tr1 tr2 :
  progress_lines (tr1 ++ tr2) = progress_lines tr1 ++ progress_lines tr2.
Proof.
  induction tr1 as [| ev tr1 IH]; [reflexivity |].
  destruct ev as [line end_ | | |]; simpl; rewrite ?IH; try reflexivity.
  destruct line as [| [] [| [] [| [] [| [] [| [] [|]]]]]]; simpl; rewrite ?IH;
    try reflexivity.
  destruct (_ =? _)%string; simpl; rewrite ?IH; reflexivity.
Qed.

(** What one iteration of a loop that returns has done. *)
Lemma upload_loop_step w self directory name rest idx total_files st tr tr' st' :
  upload_loop w self directory (name :: rest) idx total_files st tr = (tr', Return st') ->
  exists tr1 st1 tr2 ok,
    opened_files tr1 = opened_files tr /\ http_requests tr1 = http_requests tr /\
    sleeps tr1 = sleeps tr /\ progress_lines tr1 = progress_lines tr /\
    count_resources w directory name st tr1
    = (tr1 ++ [EvOpen directory name], Return st1) /\
    upload_bundle_file w self directory name (tr1 ++ [EvOpen directory name])
    = (tr2, Return ok) /\
    batch_size self <> 0%Z /\
    time_sleep w (delay_seconds self) = Return tt /\
    upload_loop w self directory rest (idx + 1) total_files
      (if ok then incr_successful st1 else incr_failed st1)
      (tr2 ++ [EvPrint [FStr (if ok then "✓" else "✗")] newline]
           ++ (if (idx mod batch_size self =? 0)%Z
               then [EvPrint (progress_line
                                (successful (if ok then incr_successful st1
                                             else incr_failed st1))
                                (failed (if ok then incr_successful st1
                                         else incr_failed st1))) newline]
               else [])
           ++ [EvSleep (delay_seconds self)])
    = (tr', Return st').
Proof.
  intros Hrun. cbn [upload_loop] in Hrun.
  invert_bind Hrun u0 tr0 Hprint. simpl in Hprint. injection Hprint as <- _.
  invert_bind Hrun st1 tr1 Hcount.
  match type of Hcount with
  | count_resources _ _ _ _ ?t = _ =>
      destruct (count_resources_spec w directory name st t) as (st1' & Hcount' & _);
      exists t
  end.
  rewrite Hcount' in Hcount. injection Hcount as <- <-.
  invert_bind Hrun success tr2 Hfile.
  invert_bind Hrun st2 tr3 Hclass.
  assert (Hst2 : tr3 = tr2 ++ [EvPrint [FStr (if success then "✓" else "✗")] newline] /\
                 st2 = if success then incr_successful st1' else incr_failed st1').
  { destruct success; simpl in Hclass; injection Hclass as <- <-; split; reflexivity. }
  destruct Hst2 as [-> ->].
  invert_bind Hrun r tr4 Hmod.
  pose proof (py_mod_Return _ _ _ _ _ Hmod) as [-> Hbatch].
  unfold py_mod in Hmod. destruct (Z.eqb_spec (batch_size self) 0) as [Hz | _];
    [contradiction |].
  simpl in Hmod. injection Hmod as <-.
  invert_bind Hrun u1 tr5 Hprog.
  invert_bind Hrun u2 tr6 Hsleep. unfold sleep in Hsleep. injection Hsleep as <- Hslept.
  destruct u2.
  exists st1', tr2, success.
  rewrite opened_files_app, http_requests_app, sleeps_app, progress_lines_app.
  simpl. rewrite !app_nil_r.
  do 4 (split; [reflexivity |]).
  split; [exact Hcount' |]. split; [exact Hfile |].
  split; [exact Hbatch |]. split; [exact Hslept |].
  destruct (idx mod batch_size self =? 0)%Z; simpl in Hprog; injection Hprog as <-;
    rewrite <- ?app_assoc in Hrun; exact Hrun.
Qed.

(** ** What one file upload sends and returns *)

Lemma upload_bundle_file_effects w self directory name tr tr2 ok :
  upload_bundle_file w self directory name tr = (tr2, Return ok) ->
  http_requests tr2
  = http_requests tr
      ++ map (upload_request self) (readable_bundles w directory [name]) /\
  sleeps tr2 = sleeps tr /\
  progress_lines tr2 = progress_lines tr.
Proof.
  unfold readable_bundles. simpl.
  destruct (json_load w directory name) as [bundle | e] eqn:Hload; intros Hrun.
  - destruct (upload_bundle_file_readable w self directory name tr bundle Hload)
      as (tr' & v & Hup & Hfile).
    rewrite Hfile in Hrun. injection Hrun as <- _.
    rewrite upload_bundle_eq in Hup. cbv zeta in Hup.
    destruct (session_send w _ (upload_request self bundle)) as [response | e];
      [destruct (upload_ok response); [destruct (json response) |] |];
      injection Hup as <- _;
      rewrite !http_requests_app, !sleeps_app, !progress_lines_app; simpl;
      rewrite !app_nil_r; repeat split; reflexivity.
  - rewrite (upload_bundle_file_unreadable _ _ _ _ _ _ Hload) in Hrun.
    injection Hrun as <- _.
    rewrite !http_requests_app, !sleeps_app, !progress_lines_app; simpl.
    rewrite !app_nil_r. repeat split; reflexivity.
Qed.

Lemma upload_bundle_file_true w self directory name tr :
  snd (upload_bundle_file w self directory name tr) = Return true <->
  exists bundle response body,
    json_load w directory name = Return bundle /\
    session_send w (http_requests tr) (upload_request self bundle) = Return response /\
    (status_code response = 200 \/ status_code response = 201)%Z /\
    json response = Return body /\
    truthy body = true.
Proof.
  destruct (json_load w directory name) as [bundle | e] eqn:Hload.
  - destruct (upload_bundle_file_readable w self directory name tr bundle Hload)
      as (tr' & v & Hup & Hfile).
    rewrite Hfile. cbn [snd].
    rewrite upload_bundle_eq in Hup. cbv zeta in Hup.
    rewrite http_requests_app in Hup. simpl in Hup. rewrite app_nil_r in Hup.
    split.
    + intros Htrue. injection Htrue as Htruthy.
      destruct (session_send w (http_requests tr) (upload_request self bundle))
        as [response | e0] eqn:Hsend.
      2:{ injection Hup as _ <-. discriminate Htruthy. }
      destruct (upload_ok response) eqn:Hok.
      2:{ injection Hup as _ <-. discriminate Htruthy. }
      destruct (json response) as [body | e1] eqn:Hjson.
      2:{ injection Hup as _ <-. discriminate Htruthy. }
      injection Hup as _ <-.
      exists bundle, response, body. apply upload_ok_iff in Hok. auto.
    + intros (bundle' & response & body & Hb & Hsend & Hstatus & Hjson & Htruthy).
      injection Hb as <-. apply upload_ok_iff in Hstatus.
      rewrite Hsend, Hstatus, Hjson in Hup. injection Hup as _ <-.
      now rewrite Htruthy.
  - rewrite (upload_bundle_file_unreadable _ _ _ _ _ _ Hload). cbn [snd]. split.
    + discriminate.
    + intros (bundle & _ & _ & Hb & _). discriminate Hb.
Qed.

(** X3. [upload_bundle_file] returns [True] exactly when the file holds a
    bundle, the server answers the upload with status 200 or 201, the
    body of the answer parses, and the parsed body is a true value: an
    accepted upload answered with an empty object, [null] or an empty
    list is reported as failed. *)
Theorem upload_bundle_file_true_iff w self directory name tr :
  snd (upload_bundle_file w self directory name tr) = Return true <->
  exists bundle response body,
    json_load w directory name = Return bundle /\
    session_send w (http_requests tr) (upload_request self bundle) = Return response /\
    (status_code response = 200 \/ status_code response = 201)%Z /\
    json response = Return body /\
    truthy body = true.
Proof. apply upload_bundle_file_true. Qed.

(** ** Requests and pauses of a batch *)

Lemma readable_bundles_cons w directory name rest :
  readable_bundles w directory (name :: rest)
  = readable_bundles w directory [name] ++ readable_bundles w directory rest.
Proof. unfold readable_bundles. simpl. now rewrite app_nil_r. Qed.

Lemma upload_loop_effects w self directory bundle_files :
  forall idx total_files st tr tr' st',
    upload_loop w self directory bundle_files idx total_files st tr = (tr', Return st') ->
    http_requests tr'
    = http_requests tr
        ++ map (upload_request self) (readable_bundles w directory bundle_files) /\
    sleeps tr' = sleeps tr ++ repeat (delay_seconds self) (List.length bundle_files).
Proof.
  induction bundle_files as [| name rest IH]; intros idx total_files st tr tr' st' Hrun.
  - simpl in Hrun. injection Hrun as <- _. simpl. now rewrite !app_nil_r.
  - apply upload_loop_step in Hrun
      as (tr1 & st1 & tr2 & ok & _ & Hhttp1 & Hsleep1 & _ & _ & Hfile & _ & _ & Hrest).
    apply upload_bundle_file_effects in Hfile as (Hhttp2 & Hsleep2 & _).
    apply IH in Hrest as (Hhttp & Hsleep).
    rewrite http_requests_app in Hhttp2. rewrite sleeps_app in Hsleep2.
    cbn [http_requests sleeps] in Hhttp2, Hsleep2.
    rewrite app_nil_r, Hhttp1 in Hhttp2. rewrite app_nil_r, Hsleep1 in Hsleep2.
    split.
    + rewrite (readable_bundles_cons w directory name rest), map_app.
      rewrite Hhttp, !http_requests_app, Hhttp2.
      destruct (idx mod batch_size self =? 0)%Z; cbn [http_requests progress_line app];
        rewrite !app_nil_r, <- ?app_assoc; reflexivity.
    + rewrite Hsleep, !sleeps_app, Hsleep2.
      destruct (idx mod batch_size self =? 0)%Z;
        cbn [sleeps progress_line app List.length repeat];
        rewrite <- ?app_assoc; reflexivity.
Qed.

Lemma upload_directory_frame w self directory tr tr' st :
  upload_directory w self directory tr = (tr', Return st) ->
  exists tr1 tr2,
    upload_loop w self directory (bundle_files_of w directory) 1
      (List.length (bundle_files_of w directory))
      (mk_stats (List.length (bundle_files_of w directory)) 0 0 0 0 0) tr1
    = (tr2, Return st) /\
    http_requests tr1 = http_requests tr /\ http_requests tr' = http_requests tr2 /\
    sleeps tr1 = sleeps tr /\ sleeps tr' = sleeps tr2 /\
    progress_lines tr1 = progress_lines tr /\ progress_lines tr' = progress_lines tr2.
Proof.
  unfold upload_directory. cbv zeta. intros Hrun.
  do 2 step_print Hrun.
  invert_bind Hrun st0 tr2 Hloop.
  do 3 step_print Hrun.
  invert_bind Hrun pct tr3 Hpct.
  unfold py_percent in Hpct.
  destruct (Nat.eqb (total st0) 0); simpl in Hpct; [discriminate |].
  injection Hpct as <- <-.
  do 6 step_print Hrun.
  simpl in Hrun. injection Hrun as <- <-.
  eexists; eexists. split; [exact Hloop |].
  rewrite !http_requests_app, !sleeps_app, !progress_lines_app. simpl.
  rewrite !app_nil_r. repeat split; reflexivity.
Qed.

Lemma upload_directory_total w self directory tr tr' st :
  upload_directory w self directory tr = (tr', Return st) ->
  total st = List.length (filter glob_json (listdir w directory)).
Proof.
  intros Hrun.
  apply upload_directory_Return in Hrun as (tr1 & tr2 & Hloop & _).
  apply upload_loop_spec in Hloop as (Ht & _).
  simpl in Ht. unfold bundle_files_of in Ht. now rewrite sorted_length in Ht.
Qed.

(** X1. A batch that completes has sent exactly one upload request for
    each file that could be read, in the order of the sorted names, with
    the bundle of the file as its body, and no request for a file that
    could not be read. *)
Theorem batch_requests w self directory tr tr' st :
  upload_directory w self directory tr = (tr', Return st) ->
  http_requests tr'
  = http_requests tr
      ++ map (upload_request self)
           (readable_bundles w directory (bundle_files_of w directory)).
Proof.
  intros Hrun.
  apply upload_directory_frame in Hrun as (tr1 & tr2 & Hloop & H1 & H2 & _).
  apply upload_loop_effects in Hloop as (Hhttp & _). congruence.
Qed.

Lemma batch_requests_witness :
  http_requests (fst (upload_directory Sample.world Sample.uploader Sample.directory []))
  = http_requests []
      ++ map (upload_request Sample.uploader)
           (readable_bundles Sample.world Sample.directory
              (bundle_files_of Sample.world Sample.directory)).
Proof.
  apply (batch_requests Sample.world Sample.uploader Sample.directory []
           _ (mk_stats 3 2 1 2 0 0)).
  vm_compute. reflexivity.
Defined.

(** X2. A batch that completes has paused once after every file, the last
    one included, each time for the configured delay. *)
Theorem batch_pauses w self directory tr tr' st :
  upload_directory w self directory tr = (tr', Return st) ->
  sleeps tr' = sleeps tr ++ repeat (delay_seconds self) (total st).
Proof.
  intros Hrun.
  pose proof (upload_directory_total _ _ _ _ _ _ Hrun) as Htotal.
  apply upload_directory_frame in Hrun as (tr1 & tr2 & Hloop & _ & _ & H1 & H2 & _).
  apply upload_loop_effects in Hloop as (_ & Hsleep).
  unfold bundle_files_of in Hsleep. rewrite sorted_length, <- Htotal in Hsleep.
  congruence.
Qed.

Lemma batch_pauses_witness :
  sleeps (fst (upload_directory Sample.world Sample.uploader Sample.directory []))
  = sleeps [] ++ repeat (delay_seconds Sample.uploader) (total (mk_stats 3 2 1 2 0 0)).
Proof.
  apply (batch_pauses Sample.world Sample.uploader Sample.directory []
           _ (mk_stats 3 2 1 2 0 0)).
  vm_compute. reflexivity.
Defined.

(** ** A file that is not valid JSON *)

Lemma upload_loop_successful_bound w self directory bundle_files :
  forall idx total_files st tr tr' st',
    upload_loop w self directory bundle_files idx total_files st tr = (tr', Return st') ->
    successful st' <= successful st + List.length bundle_files /\
    failed st <= failed st'.
Proof.
  induction bundle_files as [| name rest IH]; intros idx total_files st tr tr' st' Hrun.
  - simpl in Hrun. injection Hrun as _ <-. simpl. lia.
  - apply upload_loop_step in Hrun
      as (tr1 & st1 & tr2 & ok & _ & _ & _ & _ & Hcount & _ & _ & _ & Hrest).
    destruct (count_resources_spec w directory name st tr1)
      as (st1' & Hcount' & _ & Hs1 & Hf1 & _).
    rewrite Hcount' in Hcount. injection Hcount as ->.
    apply IH in Hrest as [Hs Hf]. destruct ok; simpl in *; lia.
Qed.

Lemma unreadable_iteration_step w self directory name rest idx total_files st tr e :
  json_load w directory name = Raise e ->
  batch_size self <> 0%Z ->
  time_sleep w (delay_seconds self) = Return tt ->
  upload_loop w self directory (name :: rest) idx total_files st tr
  = upload_loop w self directory rest (idx + 1) total_files (incr_failed st)
      (tr ++ unreadable_iteration self directory name idx total_files st e).
Proof.
  intros Hload Hbatch Hsleep. unfold unreadable_iteration.
  cbn [upload_loop bind print_end emit].
  unfold count_resources at 1. rewrite Hload.
  rewrite (upload_bundle_file_unreadable _ _ _ _ _ _ Hload).
  cbn [bind print emit ret]. unfold py_mod.
  destruct (Z.eqb_spec (batch_size self) 0) as [Hz | _]; [contradiction |].
  cbn [ret]. unfold sleep.
  destruct (idx mod batch_size self =? 0)%Z; cbn [bind print emit ret];
    rewrite Hsleep; f_equal; rewrite <- !app_assoc; reflexivity.
Qed.

(** C8. For a file that cannot be decoded, [upload_bundle_file] is still
    called: it opens the file again, fails to decode it, prints the
    error, sends nothing and returns [False].  Under a configuration with
    which an iteration completes (batch size not zero, the pause
    returns), the iteration on that file alone returns the statistics
    with [failed + 1] and nothing else changed, after exactly the events
    of [unreadable_iteration]; and the loop over that file and the
    remaining files runs to its end: it returns, it has opened the
    remaining files (twice each, in order) after this one, it has sent
    the uploads of the remaining readable files and none for this one,
    and of the files counted this one is not among the successful. *)
Theorem unreadable_file_counted_failed w self directory name rest idx total_files st tr e :
  json_load w directory name = Raise e ->
  batch_size self <> 0%Z ->
  time_sleep w (delay_seconds self) = Return tt ->
  (forall tr0,
      upload_bundle_file w self directory name tr0
      = (tr0 ++ [EvOpen directory name;
                 EvPrint [FStr "  Error processing file "; FStr name; FStr ": "; FExn e]
                   newline],
         Return false)) /\
  upload_loop w self directory [name] idx total_files st tr
  = (tr ++ unreadable_iteration self directory name idx total_files st e,
     Return (incr_failed st)) /\
  upload_loop w self directory (name :: rest) idx total_files st tr
  = upload_loop w self directory rest (idx + 1) total_files (incr_failed st)
      (tr ++ unreadable_iteration self directory name idx total_files st e) /\
  (exists tr' st',
      upload_loop w self directory (name :: rest) idx total_files st tr
      = (tr', Return st') /\
      opened_files tr' = opened_files tr ++ [name; name] ++ twice rest /\
      http_requests tr'
      = http_requests tr ++ map (upload_request self) (readable_bundles w directory rest) /\
      total st' = total st /\
      successful st' + failed st' = successful st + failed st + 1 + List.length rest /\
      successful st' <= successful st + List.length rest /\
      failed st + 1 <= failed st' /\
      patients st' = patients st + counted_entries w directory "Patient" rest /\
      observations st' = observations st + counted_entries w directory "Observation" rest /\
      medications st'
      = medications st + counted_entries w directory "MedicationStatement" rest).
Proof.
  intros Hload Hbatch Hsleep.
  split; [| split; [| split]].
  - intros tr0. rewrite (upload_bundle_file_unreadable _ _ _ _ _ _ Hload).
    now rewrite <- app_assoc.
  - now rewrite (unreadable_iteration_step w self directory name [] idx total_files st tr e).
  - now apply unreadable_iteration_step.
  - rewrite (unreadable_iteration_step w self directory name rest idx total_files st tr e)
      by assumption.
    set (tr1 := tr ++ unreadable_iteration self directory name idx total_files st e).
    assert (Hopen1 : opened_files tr1 = opened_files tr ++ [name; name]).
    { subst tr1. unfold unreadable_iteration.
      rewrite !opened_files_app. destruct (idx mod batch_size self =? 0)%Z; reflexivity. }
    assert (Hhttp1 : http_requests tr1 = http_requests tr).
    { subst tr1. unfold unreadable_iteration.
      rewrite !http_requests_app. destruct (idx mod batch_size self =? 0)%Z;
        simpl; now rewrite app_nil_r. }
    destruct (upload_loop_returns w self directory Hbatch Hsleep rest (idx + 1)%Z
                total_files (incr_failed st) tr1) as (tr' & st' & Hrun).
    exists tr', st'. split; [exact Hrun |].
    pose proof (upload_loop_spec _ _ _ _ _ _ _ _ _ _ Hrun)
      as (Ht & Hsf & Hp & Ho & Hm & Hopen).
    pose proof (upload_loop_effects _ _ _ _ _ _ _ _ _ _ Hrun) as (Hhttp & _).
    pose proof (upload_loop_successful_bound _ _ _ _ _ _ _ _ _ _ Hrun) as (Hs & Hf).
    simpl in Ht, Hsf, Hp, Ho, Hm, Hs, Hf.
    rewrite Hopen, Hopen1, Hhttp, Hhttp1, <- app_assoc.
    repeat split; try reflexivity; try assumption; lia.
Qed.

Lemma unreadable_file_counted_failed_witness :
  upload_loop Sample.world Sample.uploader Sample.directory ["c.json"] 3 3
    (mk_stats 3 2 0 2 0 0) []
  = ([] ++ unreadable_iteration Sample.uploader Sample.directory "c.json" 3 3
             (mk_stats 3 2 0 2 0 0) Sample.not_json,
     Return (incr_failed (mk_stats 3 2 0 2 0 0))).
Proof.
  refine (proj1 (proj2 (unreadable_file_counted_failed Sample.world Sample.uploader
                   Sample.directory "c.json" [] 3 3 (mk_stats 3 2 0 2 0 0) []
                   Sample.not_json _ _ _))).
  - reflexivity.
  - simpl. lia.
  - reflexivity.
Defined.

(** ** Progress lines *)

Lemma upload_loop_progress w self directory bundle_files :
  forall i total_files st tr tr' st',
    upload_loop w self directory bundle_files (Z.of_nat i) total_files st tr
    = (tr', Return st') ->
    successful st + failed st + 1 = i ->
    map (fun sf => (fst sf + snd sf)%Z) (progress_lines tr')
    = map (fun sf => (fst sf + snd sf)%Z) (progress_lines tr)
        ++ filter (fun k => (k mod batch_size self =? 0)%Z)
             (map Z.of_nat (seq i (List.length bundle_files))).
Proof.
  induction bundle_files as [| name rest IH]; intros i total_files st tr tr' st' Hrun Hidx.
  - simpl in Hrun. injection Hrun as <- _. simpl. now rewrite app_nil_r.
  - apply upload_loop_step in Hrun
      as (tr1 & st1 & tr2 & ok & _ & _ & _ & Hprog1 & Hcount & Hfile & _ & _ & Hrest).
    destruct (count_resources_spec w directory name st tr1)
      as (st1' & Hcount' & _ & Hs1 & Hf1 & _).
    rewrite Hcount' in Hcount. injection Hcount as ->.
    apply upload_bundle_file_effects in Hfile as (_ & _ & Hprog2).
    rewrite progress_lines_app in Hprog2. cbn [progress_lines] in Hprog2.
    rewrite app_nil_r, Hprog1 in Hprog2.
    replace (Z.of_nat i + 1)%Z with (Z.of_nat (S i)) in Hrest by lia.
    apply IH in Hrest; [| destruct ok; simpl; lia].
    rewrite Hrest, !progress_lines_app, Hprog2.
    cbn [List.length seq map filter].
    set (st2 := if ok then incr_successful st1 else incr_failed st1).
    assert (Hsum : (Z.of_nat (successful st2) + Z.of_nat (failed st2))%Z = Z.of_nat i)
      by (subst st2; destruct ok; simpl; lia).
    destruct (Z.of_nat i mod batch_size self =? 0)%Z; simpl;
      rewrite ?map_app; simpl; rewrite ?Hsum, ?app_nil_r, <- ?app_assoc; reflexivity.
Qed.

(** X4. In a batch that completes, a progress line is printed after the
    [k]-th file exactly for the [k] between 1 and the number of files that
    the batch size divides, and the two numbers on the line add up to
    [k]. *)
Theorem batch_progress w self directory tr tr' st :
  upload_directory w self directory tr = (tr', Return st) ->
  map (fun sf => (fst sf + snd sf)%Z) (progress_lines tr')
  = map (fun sf => (fst sf + snd sf)%Z) (progress_lines tr)
      ++ filter (fun k => (k mod batch_size self =? 0)%Z)
           (map Z.of_nat (seq 1 (total st))).
Proof.
  intros Hrun.
  pose proof (upload_directory_total _ _ _ _ _ _ Hrun) as Htotal.
  apply upload_directory_frame in Hrun
    as (tr1 & tr2 & Hloop & _ & _ & _ & _ & H1 & H2).
  apply (upload_loop_progress w self directory _ 1) in Hloop; [| reflexivity].
  unfold bundle_files_of in Hloop. rewrite sorted_length, <- Htotal in Hloop.
  congruence.
Qed.

(** ** Batches with a uniform outcome *)

Lemma upload_loop_uniform w self directory (b : bool) bundle_files :
  (forall name tr tr2 ok,
      In name bundle_files ->
      upload_bundle_file w self directory name tr = (tr2, Return ok) -> ok = b) ->
  forall idx total_files st tr tr' st',
    upload_loop w self directory bundle_files idx total_files st tr = (tr', Return st') ->
    successful st' = successful st + (if b then List.length bundle_files else 0) /\
    failed st' = failed st + (if b then 0 else List.length bundle_files).
Proof.
  induction bundle_files as [| name rest IH]; intros Hall idx total_files st tr tr' st' Hrun.
  - simpl in Hrun. injection Hrun as _ <-. destruct b; simpl; lia.
  - apply upload_loop_step in Hrun
      as (tr1 & st1 & tr2 & ok & _ & _ & _ & _ & Hcount & Hfile & _ & _ & Hrest).
    destruct (count_resources_spec w directory name st tr1)
      as (st1' & Hcount' & _ & Hs1 & Hf1 & _).
    rewrite Hcount' in Hcount. injection Hcount as ->.
    apply (Hall name _ _ _ (or_introl eq_refl)) in Hfile. subst ok.
    apply IH in Hrest; [| intros n t t2 o Hin; apply Hall; now right].
    destruct Hrest as [Hs Hf]. destruct b; simpl in *; lia.
Qed.

(** X5. When no request reaches the server during the batch, the batch
    still runs to its end (given at least one bundle, a batch size that is
    not zero and a pause that returns): every file is counted as failed
    and none as successful. *)
Theorem unreachable_server_fails_all w self directory tr :
  (forall sent req, exists e, session_send w sent req = Raise e) ->
  filter glob_json (listdir w directory) <> [] ->
  batch_size self <> 0%Z ->
  time_sleep w (delay_seconds self) = Return tt ->
  exists tr' st,
    upload_directory w self directory tr = (tr', Return st) /\
    successful st = 0 /\
    failed st = List.length (filter glob_json (listdir w directory)).
Proof.
  intros Hdown Hfiles Hbatch Hsleep.
  destruct (upload_directory_returns w self directory tr Hfiles Hbatch Hsleep)
    as (tr' & st & Hrun).
  exists tr', st. split; [exact Hrun |].
  apply upload_directory_Return in Hrun as (tr1 & tr2 & Hloop & _).
  apply (upload_loop_uniform w self directory false) in Hloop.
  - simpl in Hloop. unfold bundle_files_of in Hloop. rewrite sorted_length in Hloop.
    exact Hloop.
  - intros name t t2 ok _ Hfile. destruct ok; [| reflexivity].
    assert (Htrue : snd (upload_bundle_file w self directory name t) = Return true)
      by now rewrite Hfile.
    apply upload_bundle_file_true in Htrue
      as (bundle & response & body & _ & Hsend & _).
    destruct (Hdown (http_requests t) (upload_request self bundle)) as [e He].
    congruence.
Qed.

Lemma unreachable_server_fails_all_witness :
  exists tr' st,
    upload_directory Sample.world_unreachable Sample.uploader Sample.directory []
    = (tr', Return st) /\
    successful st = 0 /\
    failed st
    = List.length (filter glob_json (listdir Sample.world_unreachable Sample.directory)).
Proof.
  apply (unreachable_server_fails_all Sample.world_unreachable Sample.uploader
           Sample.directory []).
  - intros sent req. exists Sample.unreachable. reflexivity.
  - simpl. discriminate.
  - simpl. lia.
  - reflexivity.
Defined.

(** X6. When every bundle of the directory can be read and the server
    answers every request with status 200 or 201 and a body that parses
    to a true value, the batch (given at least one bundle, a batch size
    that is not zero and a pause that returns) counts every file as
    successful and none as failed. *)
Theorem accepting_server_succeeds_all w self directory tr :
  (forall name, In name (bundle_files_of w directory) ->
                exists bundle, json_load w directory name = Return bundle) ->
  (forall sent req, exists response body,
      session_send w sent req = Return response /\
      (status_code response = 200 \/ status_code response = 201)%Z /\
      json response = Return body /\ truthy body = true) ->
  filter glob_json (listdir w directory) <> [] ->
  batch_size self <> 0%Z ->
  time_sleep w (delay_seconds self) = Return tt ->
  exists tr' st,
    upload_directory w self directory tr = (tr', Return st) /\
    successful st = List.length (filter glob_json (listdir w directory)) /\
    failed st = 0.
Proof.
  intros Hread Haccept Hfiles Hbatch Hsleep.
  destruct (upload_directory_returns w self directory tr Hfiles Hbatch Hsleep)
    as (tr' & st & Hrun).
  exists tr', st. split; [exact Hrun |].
  apply upload_directory_Return in Hrun as (tr1 & tr2 & Hloop & _).
  apply (upload_loop_uniform w self directory true) in Hloop.
  - simpl in Hloop. unfold bundle_files_of in Hloop. rewrite sorted_length in Hloop.
    exact Hloop.
  - intros name t t2 ok Hin Hfile.
    destruct (Hread name Hin) as [bundle Hload].
    destruct (Haccept (http_requests t) (upload_request self bundle))
      as (response & body & Hsend & Hstatus & Hjson & Htruthy).
    assert (Htrue : snd (upload_bundle_file w self directory name t) = Return true).
    { apply upload_bundle_file_true. exists bundle, response, body. auto. }
    rewrite Hfile in Htrue. now injection Htrue.
Qed.

(** ** Connectivity check and search, in full *)

Ltac not_ready :=
  split; [discriminate |];
  let r := fresh "r" in
  let i := fresh "i" in
  let s := fresh "s" in
  let H1 := fresh "H" in
  let H2 := fresh "H" in
  let H3 := fresh "H" in
  let H4 := fresh "H" in
  intros (r & i & s & H1 & H2 & H3 & H4); congruence.

Ltac one_request :=
  rewrite ?http_requests_app, ?opened_files_app; simpl; rewrite ?app_nil_r;
  split; reflexivity.

Lemma test_connection_effects w self tr :
  exists tr' ok,
    test_connection w self tr = (tr', Return ok) /\
    (http_requests tr' = http_requests tr ++ [metadata_request self] /\
     opened_files tr' = opened_files tr) /\
    (ok = true <-> server_ready w self (http_requests tr)).
Proof.
  unfold test_connection, session_get, session_request, response_json, server_ready.
  fold (metadata_request self). cbn [try_except bind].
  destruct (session_send w (http_requests tr) (metadata_request self))
    as [response | e0] eqn:Hsend.
  2:{ simpl. eexists; eexists; split; [reflexivity |]. split; [one_request | not_ready]. }
  destruct (Z.eqb_spec (status_code response) 200) as [Hstatus | Hstatus].
  2:{ simpl. eexists; eexists; split; [reflexivity |]. split; [one_request | not_ready]. }
  cbn [bind print emit lift].
  destruct (json response) as [metadata | e1] eqn:Hjson.
  2:{ simpl. eexists; eexists; split; [reflexivity |]. split; [one_request | not_ready]. }
  destruct metadata as [| b | z | f | s | l | items];
    try (simpl; eexists; eexists; split; [reflexivity |];
         split; [one_request | not_ready]).
  cbn [py_get].
  destruct (dict_get items "software" (VDict [])) as [| b | z | f | s | l | software]
    eqn:Hsoftware;
    try (simpl; eexists; eexists; split; [reflexivity |];
         split; [one_request | not_ready]).
  simpl. eexists; eexists; split; [reflexivity |]. split; [one_request |].
  split; [| reflexivity]. intros _. exists response, items, software. auto.
Qed.

(** X7. [test_connection] sends one request, [GET base_url/metadata] with
    the headers of the uploader, and returns [True] exactly when the
    answer has status 200 and its body parses to an object whose
    [software], when present, is an object: status 200 with any other
    body gives [False]. *)
Theorem test_connection_true_iff w self tr :
  (snd (test_connection w self tr) = Return true <->
   server_ready w self (http_requests tr)) /\
  http_requests (fst (test_connection w self tr))
  = http_requests tr ++ [metadata_request self].
Proof.
  destruct (test_connection_effects w self tr) as (tr' & ok & -> & [Hhttp _] & Hok).
  cbn [fst snd]. split; [| exact Hhttp].
  rewrite <- Hok. split; [now intros [= ->] | now intros ->].
Qed.

Lemma search_patients_effects w self params tr :
  exists tr' result,
    search_patients w self params tr = (tr', Return result) /\
    (http_requests tr' = http_requests tr ++ [search_request self params] /\
     opened_files tr' = opened_files tr) /\
    (forall response body,
        session_send w (http_requests tr) (search_request self params) = Return response ->
        status_code response = 200%Z -> json response = Return body -> result = body) /\
    (result <> VNone ->
     exists response,
       session_send w (http_requests tr) (search_request self params) = Return response /\
       status_code response = 200%Z /\ json response = Return result).
Proof.
  unfold search_patients, session_get, session_request, response_json.
  fold (search_request self params). cbn [try_except bind].
  destruct (session_send w (http_requests tr) (search_request self params))
    as [response | e0] eqn:Hsend.
  2:{ simpl. eexists; eexists; split; [reflexivity |]. split; [one_request |].
      split; [intros; discriminate | intros Hv; now elim Hv]. }
  destruct (Z.eqb_spec (status_code response) 200) as [Hstatus | Hstatus].
  2:{ simpl. eexists; eexists; split; [reflexivity |]. split; [one_request |].
      split; [intros r b [= <-]; contradiction | intros Hv; now elim Hv]. }
  cbn [lift]. destruct (json response) as [body | e1] eqn:Hjson.
  - eexists; eexists; split; [reflexivity |]. split; [one_request |]. split.
    + intros r b [= <-] _ Hb. congruence.
    + intros _. exists response. auto.
  - simpl. eexists; eexists; split; [reflexivity |]. split; [one_request |]. split.
    + intros r b [= <-] _ Hb. congruence.
    + intros Hv. now elim Hv.
Qed.

(** X8. [search_patients] sends one request, [GET base_url/Patient] with
    the given parameters (none when [params] is [None]).  It returns the
    parsed body when the answer has status 200 and parses, and a result
    other than [None] always is the parsed body of an answer with status
    200. *)
Theorem search_patients_result w self params tr :
  (forall response body,
      session_send w (http_requests tr) (search_request self params) = Return response ->
      status_code response = 200%Z -> json response = Return body ->
      snd (search_patients w self params tr) = Return body) /\
  (forall result,
      snd (search_patients w self params tr) = Return result -> result <> VNone ->
      exists response,
        session_send w (http_requests tr) (search_request self params) = Return response /\
        status_code response = 200%Z /\ json response = Return result) /\
  http_requests (fst (search_patients w self params tr))
  = http_requests tr ++ [search_request self params].
Proof.
  destruct (search_patients_effects w self params tr)
    as (tr' & result & -> & [Hhttp _] & Hbody & Hsome).
  cbn [fst snd]. split; [| split; [| exact Hhttp]].
  - intros response body Hsend Hstatus Hjson. f_equal. eauto.
  - intros r [= <-]. exact Hsome.
Qed.

(** ** Neither check raises *)

Lemma test_connection_not_ready w self tr :
  ~ server_ready w self (http_requests tr) ->
  snd (test_connection w self tr) = Return false.
Proof.
  intros Hnot.
  destruct (test_connection_effects w self tr) as (tr' & ok & -> & _ & Hok).
  cbn [snd]. destruct ok; [| reflexivity].
  elim Hnot. now apply Hok.
Qed.

Lemma search_patients_none w self params tr :
  (forall response result,
      session_send w (http_requests tr) (search_request self params) = Return response ->
      status_code response = 200%Z -> json response <> Return result) ->
  snd (search_patients w self params tr) = Return VNone.
Proof.
  intros Hno.
  destruct (search_patients_effects w self params tr)
    as (tr' & result & -> & _ & _ & Hsome).
  cbn [snd]. f_equal.
  destruct result as [| b | z | f | s | l | items]; [reflexivity | | | | | |];
    (destruct Hsome as (response & Hsend & Hstatus & Hjson); [discriminate |];
     now elim (Hno _ _ Hsend Hstatus Hjson)).
Qed.

(** C5. [test_connection] and [search_patients] never raise: whatever the
    server does, [test_connection] returns a boolean and [search_patients]
    returns a value.  Every failure becomes the negative result, [False]
    and [None]: a request that fails in the transport (server
    unreachable), an answer with another status than 200, a body on which
    [response.json()] raises, and, for [test_connection], a body on which
    one of the three [.get] calls raises. *)
Theorem checks_never_raise w self params tr :
  (exists ok, snd (test_connection w self tr) = Return ok) /\
  (exists result, snd (search_patients w self params tr) = Return result) /\
  (forall e,
      session_send w (http_requests tr) (metadata_request self) = Raise e ->
      snd (test_connection w self tr) = Return false) /\
  (forall e,
      session_send w (http_requests tr) (search_request self params) = Raise e ->
      snd (search_patients w self params tr) = Return VNone) /\
  (forall response,
      session_send w (http_requests tr) (metadata_request self) = Return response ->
      status_code response <> 200%Z ->
      snd (test_connection w self tr) = Return false) /\
  (forall response e,
      session_send w (http_requests tr) (metadata_request self) = Return response ->
      json response = Raise e ->
      snd (test_connection w self tr) = Return false) /\
  (forall response metadata e,
      session_send w (http_requests tr) (metadata_request self) = Return response ->
      json response = Return metadata ->
      py_get metadata "software" (VDict []) = Raise e ->
      snd (test_connection w self tr) = Return false) /\
  (forall response metadata software e,
      session_send w (http_requests tr) (metadata_request self) = Return response ->
      json response = Return metadata ->
      py_get metadata "software" (VDict []) = Return software ->
      py_get software "name" (VStr "Unknown") = Raise e ->
      snd (test_connection w self tr) = Return false) /\
  (forall response metadata e,
      session_send w (http_requests tr) (metadata_request self) = Return response ->
      json response = Return metadata ->
      py_get metadata "fhirVersion" (VStr "Unknown") = Raise e ->
      snd (test_connection w self tr) = Return false) /\
  (forall response,
      session_send w (http_requests tr) (search_request self params) = Return response ->
      status_code response <> 200%Z ->
      snd (search_patients w self params tr) = Return VNone) /\
  (forall response e,
      session_send w (http_requests tr) (search_request self params) = Return response ->
      json response = Raise e ->
      snd (search_patients w self params tr) = Return VNone).
Proof.
  repeat match goal with |- _ /\ _ => split end.
  - destruct (test_connection_effects w self tr) as (tr' & ok & -> & _).
    now exists ok.
  - destruct (search_patients_effects w self params tr) as (tr' & result & -> & _).
    now exists result.
  - intros e Hsend. apply test_connection_not_ready.
    intros (r & items & sw & H1 & _). congruence.
  - intros e Hsend. apply search_patients_none. intros r v H1. congruence.
  - intros response Hsend Hstatus. apply test_connection_not_ready.
    intros (r & items & sw & H1 & H2 & _). congruence.
  - intros response e Hsend Hjson. apply test_connection_not_ready.
    intros (r & items & sw & H1 & _ & H3 & _). congruence.
  - intros response metadata e Hsend Hjson Hget. apply test_connection_not_ready.
    intros (r & items & sw & H1 & _ & H3 & _).
    assert (metadata = VDict items) as -> by congruence. discriminate Hget.
  - intros response metadata software e Hsend Hjson Hsoftware Hname.
    apply test_connection_not_ready.
    intros (r & items & sw & H1 & _ & H3 & H4).
    assert (metadata = VDict items) as -> by congruence.
    simpl in Hsoftware. injection Hsoftware as <-. rewrite H4 in Hname.
    discriminate Hname.
  - intros response metadata e Hsend Hjson Hget. apply test_connection_not_ready.
    intros (r & items & sw & H1 & _ & H3 & _).
    assert (metadata = VDict items) as -> by congruence. discriminate Hget.
  - intros response Hsend Hstatus. apply search_patients_none.
    intros r v H1 H2. congruence.
  - intros response e Hsend Hjson. apply search_patients_none.
    intros r v H1 _. congruence.
Qed.

Lemma checks_never_raise_witness :
  (snd (test_connection Sample.world_unreachable Sample.uploader []) = Return false /\
   snd (search_patients Sample.world_unreachable Sample.uploader None []) = Return VNone) /\
  (snd (test_connection Sample.world_html Sample.uploader []) = Return false /\
   snd (search_patients Sample.world_html Sample.uploader None []) = Return VNone).
Proof.
  pose proof (checks_never_raise Sample.world_unreachable Sample.uploader None [])
    as (_ & _ & Htest & Hsearch & _).
  pose proof (checks_never_raise Sample.world_html Sample.uploader None [])
    as (_ & _ & _ & _ & _ & Hbody & _ & _ & _ & _ & Hfound).
  split; split.
  - apply (Htest Sample.unreachable). reflexivity.
  - apply (Hsearch Sample.unreachable). reflexivity.
  - apply (Hbody Sample.html_page Sample.not_json); reflexivity.
  - apply (Hfound Sample.html_page Sample.not_json); reflexivity.
Defined.

(** ** Events of a run, whether it returns or raises *)

Section EmitsOnly.

Variable E : event -> Prop.

Lemma emits_only_ret {A : Type} (a : A) : emits_only E (ret a).
Proof. intros tr. exists []. simpl. now rewrite app_nil_r. Qed.

Lemma emits_only_raise {A : Type} (e : exn) : emits_only E (@raise A e).
Proof. intros tr. exists []. simpl. now rewrite app_nil_r. Qed.

Lemma emits_only_lift {A : Type} (r : pyresult A) : emits_only E (lift r).
Proof. intros tr. exists []. simpl. now rewrite app_nil_r. Qed.

Lemma emits_only_emit ev : E ev -> emits_only E (emit ev).
Proof. intros Hev tr. exists [ev]. simpl. split; [reflexivity | now constructor]. Qed.

Lemma emits_only_print line : E (EvPrint line newline) -> emits_only E (print line).
Proof. apply emits_only_emit. Qed.

Lemma emits_only_print_end line end_ :
  E (EvPrint line end_) -> emits_only E (print_end line end_).
Proof. apply emits_only_emit. Qed.

Lemma emits_only_bind {A B : Type} (m : Py A) (k : A -> Py B) :
  emits_only E m -> (forall a, emits_only E (k a)) -> emits_only E (bind m k).
Proof.
  intros Hm Hk tr. destruct (Hm tr) as (d1 & Hfst & Hall). simpl.
  destruct (m tr) as [tr1 [a | e]]; simpl in Hfst; subst tr1.
  - destruct (Hk a (tr ++ d1)) as (d2 & Hfst2 & Hall2).
    exists (d1 ++ d2). rewrite Hfst2, app_assoc. split; [reflexivity |].
    apply Forall_app. now split.
  - exists d1. now split.
Qed.

Lemma emits_only_try_except {A : Type} (body : Py A) (handler : exn -> Py A) :
  emits_only E body -> (forall e, emits_only E (handler e)) ->
  emits_only E (try_except body handler).
Proof.
  intros Hm Hk tr. destruct (Hm tr) as (d1 & Hfst & Hall). simpl.
  destruct (body tr) as [tr1 [a | e]]; simpl in Hfst; subst tr1.
  - exists d1. now split.
  - destruct (Hk e (tr ++ d1)) as (d2 & Hfst2 & Hall2).
    exists (d1 ++ d2). rewrite Hfst2, app_assoc. split; [reflexivity |].
    apply Forall_app. now split.
Qed.

Lemma emits_only_session_request w req :
  E (EvHttp req) -> emits_only E (session_request w req).
Proof. intros Hev tr. exists [EvHttp req]. split; [reflexivity | now constructor]. Qed.

Lemma emits_only_load_bundle w directory name :
  E (EvOpen directory name) -> emits_only E (load_bundle w directory name).
Proof.
  intros Hev tr. exists [EvOpen directory name]. split; [reflexivity | now constructor].
Qed.

Lemma emits_only_count_resources w directory name st :
  E (EvOpen directory name) -> emits_only E (count_resources w directory name st).
Proof.
  intros Hev tr. exists [EvOpen directory name]. unfold count_resources.
  destruct (json_load w directory name); (split; [reflexivity | now constructor]).
Qed.

Lemma emits_only_sleep w secs : E (EvSleep secs) -> emits_only E (sleep w secs).
Proof. intros Hev tr. exists [EvSleep secs]. split; [reflexivity | now constructor]. Qed.

Lemma emits_only_py_mod a b : emits_only E (py_mod a b).
Proof.
  unfold py_mod. destruct (b =? 0)%Z; [apply emits_only_raise | apply emits_only_ret].
Qed.

Lemma emits_only_py_percent n d : emits_only E (py_percent n d).
Proof.
  unfold py_percent. destruct (Nat.eqb d 0); [apply emits_only_raise | apply emits_only_ret].
Qed.

End EmitsOnly.

(** Decomposes a computation built from the operations of the monad. *)
Ltac emits :=
  repeat
    match goal with
    | |- emits_only _ (bind _ _) => apply emits_only_bind; [| intros]
    | |- emits_only _ (try_except _ _) => apply emits_only_try_except; [| intros]
    | |- emits_only _ (ret _) => apply emits_only_ret
    | |- emits_only _ (raise _) => apply emits_only_raise
    | |- emits_only _ (lift _) => apply emits_only_lift
    | |- emits_only _ (response_json _) => apply emits_only_lift
    | |- emits_only _ (print _) => apply emits_only_print; exact I
    | |- emits_only _ (print_end _ _) => apply emits_only_print_end; exact I
    | |- emits_only _ (py_mod _ _) => apply emits_only_py_mod
    | |- emits_only _ (py_percent _ _) => apply emits_only_py_percent
    | |- emits_only _ (sleep _ _) => apply emits_only_sleep; exact I
    | |- emits_only _ (load_bundle _ _ _) => apply emits_only_load_bundle; exact I
    | |- emits_only _ (count_resources _ _ _ _) =>
        apply emits_only_count_resources; exact I
    | |- emits_only _ (if ?c then _ else _) => destruct c
    end.

Lemma upload_bundle_emits w self bundle :
  emits_only (upload_event self) (upload_bundle w self bundle).
Proof.
  unfold upload_bundle, session_post. emits.
  apply emits_only_session_request. now exists bundle.
Qed.

Lemma upload_bundle_file_emits w self directory name :
  emits_only (upload_event self) (upload_bundle_file w self directory name).
Proof. unfold upload_bundle_file. emits. apply upload_bundle_emits. Qed.

Lemma upload_loop_emits w self directory bundle_files :
  forall idx total_files st,
    emits_only (upload_event self)
      (upload_loop w self directory bundle_files idx total_files st).
Proof.
  induction bundle_files as [| name rest IH]; intros idx total_files st;
    cbn [upload_loop]; emits; first [apply upload_bundle_file_emits | apply IH].
Qed.

Lemma upload_directory_emits w self directory :
  emits_only (upload_event self) (upload_directory w self directory).
Proof. unfold upload_directory. cbv zeta. emits. apply upload_loop_emits. Qed.

Lemma upload_events_requests self added :
  Forall (upload_event self) added -> Forall (is_upload self) (http_requests added).
Proof.
  induction 1 as [| ev rest Hev _ IH]; simpl; [constructor |].
  destruct ev; simpl in *; try exact IH. now constructor.
Qed.

(** X9. Whatever the files and the server do, and whether the batch
    returns or raises, the only requests [upload_directory] sends are
    uploads of this uploader: [POST base_url] with its headers, a bundle
    as body and the timeout of 30 seconds. *)
Theorem batch_sends_only_uploads w self directory tr :
  exists uploads,
    http_requests (fst (upload_directory w self directory tr))
    = http_requests tr ++ uploads /\
    Forall (fun req =>
              method req = POST /\ url req = base_url self /\
              headers req = _get_headers self /\ timeout req = 30%Z /\
              exists bundle, json_body req = Some bundle) uploads.
Proof.
  destruct (upload_directory_emits w self directory tr) as (added & -> & Hall).
  exists (http_requests added). rewrite http_requests_app. split; [reflexivity |].
  apply upload_events_requests in Hall.
  eapply Forall_impl; [| exact Hall].
  intros req [bundle ->]. simpl. repeat split. now exists bundle.
Qed.

(** ** The ways through main *)

Lemma configured_all w :
  configured w ->
  py_all [getenv w "HTTP_HOSTNAME"; getenv w "HTTP_CLIENT_ID"; getenv w "HTTP_CLIENT_SECRET"]
  = true.
Proof.
  intros (hostname & id & secret & -> & Hh & -> & Hi & -> & Hs).
  unfold py_all. simpl.
  apply String.eqb_neq in Hh, Hi, Hs. now rewrite Hh, Hi, Hs.
Qed.

Lemma prefix_append : forall s t, String.prefix s (String.append s t) = true.
Proof.
  induction s as [| c s IH]; intros t; simpl.
  - now destruct t.
  - destruct (ascii_dec c c) as [_ | Hneq]; [apply IH | now elim Hneq].
Qed.

Lemma prefix_refl : forall s, String.prefix s s = true.
Proof.
  induction s as [| c s IH]; simpl; [reflexivity |].
  destruct (ascii_dec c c) as [_ | Hneq]; [exact IH | now elim Hneq].
Qed.

(** The four ways through [main] once the configuration is accepted. *)
Lemma main_cases w tr :
  py_all [getenv w "HTTP_HOSTNAME"; getenv w "HTTP_CLIENT_ID"; getenv w "HTTP_CLIENT_SECRET"]
  = true ->
  exists tr0 tr1 ok,
    http_requests tr0 = http_requests tr /\ opened_files tr0 = opened_files tr /\
    test_connection w (main_uploader w) tr0 = (tr1, Return ok) /\
    ((ok = false /\
      exists lines, main w tr = (tr1 ++ lines, Return tt) /\
                    http_requests lines = [] /\ opened_files lines = []) \/
     (ok = true /\ path_exists w (main_directory w) = false /\
      exists lines, main w tr = (tr1 ++ lines, Return tt) /\
                    http_requests lines = [] /\ opened_files lines = []) \/
     (ok = true /\ path_exists w (main_directory w) = true /\
      exists tr2 e,
        upload_directory w (main_uploader w) (main_directory w) tr1 = (tr2, Raise e) /\
        main w tr = (tr2, Raise e)) \/
     (ok = true /\ path_exists w (main_directory w) = true /\
      exists tr2 st tr2' tr3 result,
        upload_directory w (main_uploader w) (main_directory w) tr1 = (tr2, Return st) /\
        http_requests tr2' = http_requests tr2 /\ opened_files tr2' = opened_files tr2 /\
        search_patients w (main_uploader w) (Some [("_count", "10")]) tr2'
        = (tr3, Return result) /\
        ((truthy result = false /\ main w tr = (tr3, Return tt)) \/
         (truthy result = true /\
          exists items lines, result = VDict items /\
                        main w tr = (tr3 ++ lines, Return tt) /\
                        http_requests lines = [] /\ opened_files lines = []) \/
         (truthy result = true /\ (forall items, result <> VDict items) /\
          exists e, exn_class_of e = AttributeError /\ main w tr = (tr3, Raise e))))).
Proof.
  intros Hall. unfold main. cbv zeta. rewrite Hall. cbn [negb].
  fold (main_uploader w). fold (main_directory w). cbn [bind print emit].
  set (tr0 := tr ++ [EvPrint [FStr "Testing FHIR server connection..."] newline]).
  destruct (test_connection_effects w (main_uploader w) tr0) as (tr1 & ok & Htest & _).
  exists tr0, tr1, ok. subst tr0.
  rewrite http_requests_app, opened_files_app. simpl. rewrite !app_nil_r.
  do 2 (split; [reflexivity |]). split; [exact Htest |].
  rewrite Htest. destruct ok; cbn [negb].
  2:{ left. split; [reflexivity |]. cbn [bind print emit]. rewrite <- !app_assoc. simpl.
      eexists. split; [reflexivity |]. split; reflexivity. }
  right. destruct (path_exists w (main_directory w)) eqn:Hexists; cbn [negb].
  2:{ left. do 2 (split; [reflexivity |]). cbn [bind print emit].
      rewrite <- !app_assoc. simpl.
      eexists. split; [reflexivity |]. split; reflexivity. }
  right. cbn [bind].
  destruct (upload_directory w (main_uploader w) (main_directory w) tr1)
    as [tr2 [st | e]] eqn:Hbatch.
  2:{ left. do 2 (split; [reflexivity |]). exists tr2, e. split; reflexivity. }
  right. do 2 (split; [reflexivity |]). cbn [print emit].
  set (tr2' := tr2 ++ [EvPrint [FStr newline; FStr "Verifying upload..."] newline]).
  destruct (search_patients_effects w (main_uploader w) (Some [("_count", "10")]) tr2')
    as (tr3 & result & Hsearch & _).
  exists tr2, st, tr2', tr3, result. split; [reflexivity |].
  split; [subst tr2'; rewrite http_requests_app; simpl; now rewrite app_nil_r |].
  split; [subst tr2'; rewrite opened_files_app; simpl; now rewrite app_nil_r |].
  split; [exact Hsearch |].
  rewrite Hsearch. destruct (truthy result) eqn:Htruthy.
  2:{ left. split; reflexivity. }
  right. destruct result as [| b | z | f | s | l | items];
    try (right; split; [reflexivity |]; split; [discriminate |];
         eexists; split; [| reflexivity]; reflexivity).
  left. split; [reflexivity |]. exists items. simpl.
  eexists. split; [reflexivity |]. split; [reflexivity |]. split; reflexivity.
Qed.

Lemma main_connection_test w tr tr0 tr1 ok :
  http_requests tr0 = http_requests tr -> opened_files tr0 = opened_files tr ->
  test_connection w (main_uploader w) tr0 = (tr1, Return ok) ->
  http_requests tr1 = http_requests tr ++ [metadata_request (main_uploader w)] /\
  opened_files tr1 = opened_files tr /\
  (ok = true <-> server_ready w (main_uploader w) (http_requests tr)).
Proof.
  intros Hhttp Hopen Htest.
  destruct (test_connection_effects w (main_uploader w) tr0)
    as (tr1' & ok' & Htest' & [Hh Ho] & Hok).
  rewrite Htest in Htest'. injection Htest' as <- <-.
  rewrite Hhttp in Hh, Hok. rewrite Hopen in Ho. auto.
Qed.

Ltac after_lines Hmain Hh Ho :=
  rewrite Hmain; cbn [fst snd];
  rewrite http_requests_app, opened_files_app, Hh, Ho, !app_nil_r.

(** X10. With the configuration in place, when the connection test does
    not succeed (the server cannot be reached, answers with another
    status than 200 or with a body that is not an object), [main] returns
    after the metadata request: nothing is uploaded, no file is opened
    and no search is made. *)
Theorem main_stops_when_not_connected w tr :
  configured w ->
  ~ server_ready w (main_uploader w) (http_requests tr) ->
  snd (main w tr) = Return tt /\
  http_requests (fst (main w tr))
  = http_requests tr ++ [metadata_request (main_uploader w)] /\
  opened_files (fst (main w tr)) = opened_files tr.
Proof.
  intros Hconf Hnot.
  destruct (main_cases w tr (configured_all w Hconf))
    as (tr0 & tr1 & ok & Hh0 & Ho0 & Htest & Hcases).
  destruct (main_connection_test w tr tr0 tr1 ok Hh0 Ho0 Htest) as (Hh1 & Ho1 & Hok).
  destruct Hcases as [(_ & lines & Hmain & Hh & Ho) | [(-> & _) | [(-> & _) | (-> & _)]]];
    try (elim Hnot; now apply Hok).
  after_lines Hmain Hh Ho. auto.
Qed.

(** X11. With the configuration in place and the connection test passed,
    when the input directory does not exist [main] returns after the
    metadata request: nothing is uploaded, no file is opened and no
    search is made. *)
Theorem main_stops_without_directory w tr :
  configured w ->
  server_ready w (main_uploader w) (http_requests tr) ->
  path_exists w (main_directory w) = false ->
  snd (main w tr) = Return tt /\
  http_requests (fst (main w tr))
  = http_requests tr ++ [metadata_request (main_uploader w)] /\
  opened_files (fst (main w tr)) = opened_files tr.
Proof.
  intros Hconf Hready Hmissing.
  destruct (main_cases w tr (configured_all w Hconf))
    as (tr0 & tr1 & ok & Hh0 & Ho0 & Htest & Hcases).
  destruct (main_connection_test w tr tr0 tr1 ok Hh0 Ho0 Htest) as (Hh1 & Ho1 & Hok).
  destruct Hcases as [(-> & _) | [(_ & _ & lines & Hmain & Hh & Ho)
                     | [(_ & Hex & _) | (_ & Hex & _)]]];
    try congruence.
  - apply Hok in Hready. discriminate Hready.
  - after_lines Hmain Hh Ho. auto.
Qed.

(** X12. With the configuration in place, the connection test passed and
    an input directory that exists but holds no [*.json] file, the
    division by zero of the summary leaves [main]: [main] raises
    [ZeroDivisionError] and the search that verifies the upload is not
    made. *)
Theorem main_raises_on_empty_directory w tr :
  configured w ->
  server_ready w (main_uploader w) (http_requests tr) ->
  path_exists w (main_directory w) = true ->
  filter glob_json (listdir w (main_directory w)) = [] ->
  snd (main w tr) = Raise (mk_exn ZeroDivisionError "division by zero") /\
  http_requests (fst (main w tr))
  = http_requests tr ++ [metadata_request (main_uploader w)].
Proof.
  intros Hconf Hready Hexists Hempty.
  destruct (main_cases w tr (configured_all w Hconf))
    as (tr0 & tr1 & ok & Hh0 & Ho0 & Htest & Hcases).
  destruct (main_connection_test w tr tr0 tr1 ok Hh0 Ho0 Htest) as (Hh1 & Ho1 & Hok).
  assert (Hbatch : exists lines,
             upload_directory w (main_uploader w) (main_directory w) tr1
             = (tr1 ++ lines, Raise (mk_exn ZeroDivisionError "division by zero")) /\
             http_requests lines = []).
  { unfold upload_directory, bundle_files_of. rewrite Hempty. simpl.
    rewrite <- !app_assoc. simpl. eexists. split; reflexivity. }
  destruct Hbatch as (lines & Hbatch & Hlines).
  destruct Hcases as [(-> & _) | [(_ & Hex & _)
                     | [(_ & _ & tr2 & e & Hrun & Hmain)
                       | (_ & _ & tr2 & st & tr2' & tr3 & result & Hrun & _)]]];
    try congruence.
  - apply Hok in Hready. discriminate Hready.
  - rewrite Hbatch in Hrun. injection Hrun as <- <-.
    rewrite Hmain. cbn [fst snd]. split; [reflexivity |].
    now rewrite http_requests_app, Hlines, app_nil_r.
Qed.

(** What a batch that returns has sent and opened. *)
Lemma upload_directory_effects w self directory tr tr' st :
  upload_directory w self directory tr = (tr', Return st) ->
  http_requests tr'
  = http_requests tr
      ++ map (upload_request self)
           (readable_bundles w directory (bundle_files_of w directory)) /\
  opened_files tr' = opened_files tr ++ twice (bundle_files_of w directory).
Proof.
  intros Hrun. split.
  - apply upload_directory_frame in Hrun as (tr1 & tr2 & Hloop & H1 & H2 & _).
    apply upload_loop_effects in Hloop as (Hhttp & _). congruence.
  - apply upload_directory_Return in Hrun as (tr1 & tr2 & Hloop & H1 & H2 & _).
    apply upload_loop_spec in Hloop as (_ & _ & _ & _ & _ & Hopen). congruence.
Qed.

Lemma main_batch_returns w tr1 :
  filter glob_json (listdir w (main_directory w)) <> [] ->
  time_sleep w (delay_seconds (main_uploader w)) = Return tt ->
  exists tr2 st,
    upload_directory w (main_uploader w) (main_directory w) tr1 = (tr2, Return st).
Proof.
  intros Hfiles Hsleep. apply upload_directory_returns; try assumption.
  simpl. lia.
Qed.

(** X13. A full run of [main]: with the configuration in place, the
    connection test passed, an input directory with at least one bundle,
    a pause that returns, and a search whose result, when it is a true
    value, is an object, [main] returns normally; it has sent the
    metadata request, then one upload for each readable bundle in the
    order of the sorted names, then the search with [_count=10], and it
    has opened every bundle twice. *)
Theorem main_full_run w tr :
  configured w ->
  server_ready w (main_uploader w) (http_requests tr) ->
  path_exists w (main_directory w) = true ->
  filter glob_json (listdir w (main_directory w)) <> [] ->
  time_sleep w (delay_seconds (main_uploader w)) = Return tt ->
  (forall sent response result,
      session_send w sent (search_request (main_uploader w) (Some [("_count", "10")]))
      = Return response ->
      status_code response = 200%Z -> json response = Return result ->
      truthy result = true -> exists items, result = VDict items) ->
  snd (main w tr) = Return tt /\
  http_requests (fst (main w tr))
  = http_requests tr
      ++ metadata_request (main_uploader w)
         :: map (upload_request (main_uploader w))
              (readable_bundles w (main_directory w)
                 (bundle_files_of w (main_directory w)))
      ++ [search_request (main_uploader w) (Some [("_count", "10")])] /\
  opened_files (fst (main w tr))
  = opened_files tr ++ twice (bundle_files_of w (main_directory w)).
Proof.
  intros Hconf Hready Hexists Hfiles Hsleep Hsearch.
  destruct (main_cases w tr (configured_all w Hconf))
    as (tr0 & tr1 & ok & Hh0 & Ho0 & Htest & Hcases).
  destruct (main_connection_test w tr tr0 tr1 ok Hh0 Ho0 Htest) as (Hh1 & Ho1 & Hok).
  destruct (main_batch_returns w tr1 Hfiles Hsleep) as (tr2' & st' & Hbatch).
  destruct Hcases as [(-> & _) | [(_ & Hex & _)
                     | [(_ & _ & tr2 & e & Hrun & _)
                       | (_ & _ & tr2 & st & tr2s & tr3 & result & Hrun & Hh2 & Ho2
                            & Hfind & Hresult)]]];
    try congruence.
  - apply Hok in Hready. discriminate Hready.
  - apply upload_directory_effects in Hrun as (Hhb & Hob).
    destruct (search_patients_effects w (main_uploader w) (Some [("_count", "10")]) tr2s)
      as (tr3' & result' & Hfind' & [Hh3 Ho3] & _ & Hsome).
    rewrite Hfind in Hfind'. injection Hfind' as <- <-.
    assert (Hhttp : http_requests tr3
                    = http_requests tr
                        ++ metadata_request (main_uploader w)
                           :: map (upload_request (main_uploader w))
                                (readable_bundles w (main_directory w)
                                   (bundle_files_of w (main_directory w)))
                        ++ [search_request (main_uploader w) (Some [("_count", "10")])]).
    { rewrite Hh3, Hh2, Hhb, Hh1, <- !app_assoc. reflexivity. }
    assert (Hopen : opened_files tr3
                    = opened_files tr ++ twice (bundle_files_of w (main_directory w))).
    { rewrite Ho3, Ho2, Hob, Ho1. reflexivity. }
    destruct Hresult as [(_ & Hmain) | [(_ & items & lines & _ & Hmain & Hh & Ho)
                        | (Htruthy & Hnot & _)]].
    + rewrite Hmain. cbn [fst snd]. auto.
    + after_lines Hmain Hh Ho. auto.
    + exfalso.
      assert (Hnone : result <> VNone) by (intros ->; discriminate Htruthy).
      destruct (Hsome Hnone) as (response & Hsend & Hstatus & Hjson).
      rewrite Hh2, Hhb, Hh1 in Hsend.
      destruct (Hsearch _ _ _ Hsend Hstatus Hjson Htruthy) as [items ->].
      now apply (Hnot items).
Qed.

(** X14. When the search that verifies the upload is answered with status
    200 and a body that parses to a true value that is not an object (a
    list, a string, a number), [main] raises [AttributeError] at the end
    of an otherwise complete run: the metadata request, one upload for
    each readable bundle in the order of the sorted names and the search
    with [_count=10] have been sent, and every bundle has been opened
    twice. *)
Theorem main_raises_on_search_result w tr result :
  configured w ->
  server_ready w (main_uploader w) (http_requests tr) ->
  path_exists w (main_directory w) = true ->
  filter glob_json (listdir w (main_directory w)) <> [] ->
  time_sleep w (delay_seconds (main_uploader w)) = Return tt ->
  (forall sent, exists response,
      session_send w sent (search_request (main_uploader w) (Some [("_count", "10")]))
      = Return response /\
      status_code response = 200%Z /\ json response = Return result) ->
  truthy result = true ->
  (forall items, result <> VDict items) ->
  (exists e, snd (main w tr) = Raise e /\ exn_class_of e = AttributeError) /\
  http_requests (fst (main w tr))
  = http_requests tr
      ++ metadata_request (main_uploader w)
         :: map (upload_request (main_uploader w))
              (readable_bundles w (main_directory w)
                 (bundle_files_of w (main_directory w)))
      ++ [search_request (main_uploader w) (Some [("_count", "10")])] /\
  opened_files (fst (main w tr))
  = opened_files tr ++ twice (bundle_files_of w (main_directory w)).
Proof.
  intros Hconf Hready Hexists Hfiles Hsleep Hsearch Htruthy Hnot.
  destruct (main_cases w tr (configured_all w Hconf))
    as (tr0 & tr1 & ok & Hh0 & Ho0 & Htest & Hcases).
  destruct (main_connection_test w tr tr0 tr1 ok Hh0 Ho0 Htest) as (Hh1 & Ho1 & Hok).
  destruct (main_batch_returns w tr1 Hfiles Hsleep) as (tr2' & st' & Hbatch).
  destruct Hcases as [(-> & _) | [(_ & Hex & _)
                     | [(_ & _ & tr2 & e & Hrun & _)
                       | (_ & _ & tr2 & st & tr2s & tr3 & found & Hrun & Hh2 & Ho2
                            & Hfind & Hresult)]]];
    try congruence.
  - apply Hok in Hready. discriminate Hready.
  - apply upload_directory_effects in Hrun as (Hhb & Hob).
    destruct (search_patients_effects w (main_uploader w) (Some [("_count", "10")]) tr2s)
      as (tr3' & found' & Hfind' & [Hh3 Ho3] & Hbody & _).
    rewrite Hfind in Hfind'. injection Hfind' as <- <-.
    destruct (Hsearch (http_requests tr2s)) as (response & Hsend & Hstatus & Hjson).
    pose proof (Hbody response result Hsend Hstatus Hjson) as ->.
    destruct Hresult as [(Hfalse & _) | [(_ & items & _ & Hdict & _)
                        | (_ & _ & e & Hclass & Hmain)]].
    + congruence.
    + now elim (Hnot items).
    + rewrite Hmain. cbn [fst snd]. split; [now exists e |]. split.
      * rewrite Hh3, Hh2, Hhb, Hh1, <- !app_assoc. reflexivity.
      * rewrite Ho3, Ho2, Hob, Ho1. reflexivity.
Qed.

(** ** Every request of main *)

Lemma main_requests w tr :
  exists reqs,
    http_requests (fst (main w tr)) = http_requests tr ++ reqs /\
    (reqs = [] \/
     exists uploads last,
       reqs = metadata_request (main_uploader w) :: uploads ++ last /\
       Forall (is_upload (main_uploader w)) uploads /\
       (last = [] \/
        last = [search_request (main_uploader w) (Some [("_count", "10")])])).
Proof.
  destruct (py_all [getenv w "HTTP_HOSTNAME"; getenv w "HTTP_CLIENT_ID";
                    getenv w "HTTP_CLIENT_SECRET"]) eqn:Hall.
  2:{ exists []. rewrite (main_config_error w tr Hall).
      destruct (report_missing_env_eq tr) as (lines & -> & Hh & _).
      cbn [fst]. rewrite http_requests_app, Hh. split; [reflexivity | now left]. }
  destruct (main_cases w tr Hall) as (tr0 & tr1 & ok & Hh0 & Ho0 & Htest & Hcases).
  destruct (main_connection_test w tr tr0 tr1 ok Hh0 Ho0 Htest) as (Hh1 & _ & _).
  destruct (upload_directory_emits w (main_uploader w) (main_directory w) tr1)
    as (added & Hadded & Hevents).
  apply upload_events_requests in Hevents.
  destruct Hcases as [(_ & lines & Hmain & Hh & Ho) | [(_ & _ & lines & Hmain & Hh & Ho)
                     | [(_ & _ & tr2 & e & Hrun & Hmain)
                       | (_ & _ & tr2 & st & tr2s & tr3 & found & Hrun & Hh2 & Ho2
                            & Hfind & Hresult)]]].
  - exists [metadata_request (main_uploader w)]. rewrite Hmain. cbn [fst].
    rewrite http_requests_app, Hh, app_nil_r. split; [exact Hh1 |].
    right. exists [], []. auto.
  - exists [metadata_request (main_uploader w)]. rewrite Hmain. cbn [fst].
    rewrite http_requests_app, Hh, app_nil_r. split; [exact Hh1 |].
    right. exists [], []. auto.
  - rewrite Hrun in Hadded. cbn [fst] in Hadded. subst tr2.
    exists (metadata_request (main_uploader w) :: http_requests added ++ []).
    rewrite Hmain. cbn [fst]. rewrite http_requests_app, Hh1, app_nil_r, <- app_assoc.
    split; [reflexivity |]. right. exists (http_requests added), [].
    rewrite app_nil_r. auto.
  - rewrite Hrun in Hadded. cbn [fst] in Hadded. subst tr2.
    destruct (search_patients_effects w (main_uploader w) (Some [("_count", "10")]) tr2s)
      as (tr3' & found' & Hfind' & [Hh3 _] & _).
    rewrite Hfind in Hfind'. injection Hfind' as <- <-.
    exists (metadata_request (main_uploader w)
              :: http_requests added
              ++ [search_request (main_uploader w) (Some [("_count", "10")])]).
    split.
    + assert (Hhttp : http_requests tr3
                      = http_requests tr
                          ++ metadata_request (main_uploader w)
                             :: http_requests added
                             ++ [search_request (main_uploader w)
                                   (Some [("_count", "10")])]).
      { rewrite Hh3, Hh2, http_requests_app, Hh1, <- !app_assoc. reflexivity. }
      destruct Hresult as [(_ & Hmain) | [(_ & items & lines & _ & Hmain & Hh & Ho)
                          | (_ & _ & e & _ & Hmain)]];
        rewrite Hmain; cbn [fst]; rewrite ?http_requests_app, ?Hh, ?app_nil_r;
        exact Hhttp.
    + right. eexists; eexists. split; [reflexivity |]. auto.
Qed.

(** X15. The requests of any run of [main], whatever the environment,
    the files and the server do: either none, or the metadata request
    first, then only uploads, then at most one search, which is the last
    request.  Nothing is uploaded before the connection test. *)
Theorem main_requests_shape w tr :
  exists reqs,
    http_requests (fst (main w tr)) = http_requests tr ++ reqs /\
    (reqs = [] \/
     exists uploads last,
       reqs = metadata_request (main_uploader w) :: uploads ++ last /\
       Forall (is_upload (main_uploader w)) uploads /\
       (last = [] \/
        last = [search_request (main_uploader w) (Some [("_count", "10")])])).
Proof. apply main_requests. Qed.

(** X16. Every request [main] sends goes to the configured server over
    https, under [/fhir/R4], and carries the two content headers and the
    client id and secret of the environment. *)
Theorem main_requests_authenticated w tr hostname id secret :
  getenv w "HTTP_HOSTNAME" = Some hostname ->
  getenv w "HTTP_CLIENT_ID" = Some id ->
  getenv w "HTTP_CLIENT_SECRET" = Some secret ->
  exists reqs,
    http_requests (fst (main w tr)) = http_requests tr ++ reqs /\
    Forall (fun req =>
              String.prefix
                (String.append "https://" (String.append hostname "/fhir/R4"))
                (url req) = true /\
              headers req = [ ("Content-Type", "application/fhir+json");
                              ("Accept", "application/fhir+json");
                              ("CF-Access-Client-Id", id);
                              ("CF-Access-Client-Secret", secret) ]) reqs.
Proof.
  intros Hhost Hid Hsecret.
  destruct (main_requests w tr) as (reqs & Hhttp & Hshape).
  exists reqs. split; [exact Hhttp |].
  assert (Hbase : base_url (main_uploader w)
                  = String.append "https://" (String.append hostname "/fhir/R4"))
    by (unfold main_uploader; now rewrite Hhost).
  assert (Hheaders : _get_headers (main_uploader w)
                     = [ ("Content-Type", "application/fhir+json");
                         ("Accept", "application/fhir+json");
                         ("CF-Access-Client-Id", id);
                         ("CF-Access-Client-Secret", secret) ])
    by (unfold main_uploader, _get_headers; simpl; now rewrite Hid, Hsecret).
  destruct Hshape as [-> | (uploads & last & -> & Huploads & Hlast)]; [constructor |].
  constructor; [| apply Forall_app; split].
  - unfold metadata_request. cbn [url headers]. rewrite Hbase, Hheaders.
    split; [apply prefix_append | reflexivity].
  - eapply Forall_impl; [| exact Huploads].
    intros req [bundle ->]. unfold upload_request. cbn [url headers].
    rewrite Hbase, Hheaders. split; [apply prefix_refl | reflexivity].
  - destruct Hlast as [-> | ->]; constructor; [| constructor].
    unfold search_request. cbn [url headers]. rewrite Hbase, Hheaders.
    split; [apply prefix_append | reflexivity].
Qed.

(** ** Edge cases of the batch *)

(** X17. With a batch size of zero and at least one bundle in the
    directory, the first file is opened by the counting block and handed
    to [upload_bundle_file] (its upload request is sent when the file is
    readable) and its mark is printed; then the test for the progress
    line divides by zero and [upload_directory] raises
    [ZeroDivisionError]: there is no pause, the remaining files are not
    touched and no statistics are returned. *)
Theorem zero_batch_size_raises w self directory tr :
  batch_size self = 0%Z ->
  filter glob_json (listdir w directory) <> [] ->
  exists tr' e name rest (ok : bool),
    upload_directory w self directory tr = (tr', Raise e) /\
    exn_class_of e = ZeroDivisionError /\
    bundle_files_of w directory = name :: rest /\
    opened_files tr' = opened_files tr ++ [name; name] /\
    http_requests tr'
    = http_requests tr
        ++ map (upload_request self) (readable_bundles w directory [name]) /\
    sleeps tr' = sleeps tr /\
    (exists before, printed tr' = before ++ [[FStr (if ok then "✓" else "✗")]]) /\
    (ok = true <->
     exists bundle response body,
       json_load w directory name = Return bundle /\
       session_send w (http_requests tr) (upload_request self bundle) = Return response /\
       (status_code response = 200 \/ status_code response = 201)%Z /\
       json response = Return body /\
       truthy body = true).
Proof.
  intros Hzero Hfiles.
  destruct (bundle_files_of w directory) as [| name rest] eqn:Hnames.
  { exfalso. apply Hfiles. apply length_zero_iff_nil.
    rewrite <- (sorted_length (filter glob_json (listdir w directory))).
    unfold bundle_files_of in Hnames. now rewrite Hnames. }
  unfold upload_directory. cbv zeta. rewrite Hnames.
  cbn [bind print emit upload_loop print_end List.length].
  match goal with
  | |- context [count_resources w directory name ?s ?t] =>
      destruct (count_resources_spec w directory name s t) as (st1 & Hcount & _);
      rewrite Hcount
  end.
  match goal with
  | |- context [upload_bundle_file w self directory name ?t] =>
      destruct (upload_bundle_file_returns w self directory name t)
        as (tr2 & ok & Hfile & Hopen);
      pose proof (upload_bundle_file_effects _ _ _ _ _ _ _ Hfile) as (Hhttp & Hsleep & _);
      pose proof (upload_bundle_file_true w self directory name t) as Htrue;
      rewrite Hfile
  end.
  unfold py_mod. rewrite Hzero. cbn [Z.eqb].
  rewrite !opened_files_app in Hopen. cbn [opened_files] in Hopen.
  rewrite !app_nil_r in Hopen.
  rewrite !http_requests_app in Hhttp, Htrue. cbn [http_requests] in Hhttp, Htrue.
  rewrite !app_nil_r in Hhttp, Htrue.
  rewrite !sleeps_app in Hsleep. cbn [sleeps] in Hsleep. rewrite !app_nil_r in Hsleep.
  rewrite Hfile in Htrue. cbn [snd] in Htrue.
  assert (Hok : ok = true <->
                exists bundle response body,
                  json_load w directory name = Return bundle /\
                  session_send w (http_requests tr) (upload_request self bundle)
                  = Return response /\
                  (status_code response = 200 \/ status_code response = 201)%Z /\
                  json response = Return body /\ truthy body = true).
  { rewrite <- Htrue. split; [now intros -> | now intros [= ->]]. }
  exists (tr2 ++ [EvPrint [FStr (if ok then "✓" else "✗")] newline]).
  exists (mk_exn ZeroDivisionError "integer modulo by zero"), name, rest, ok.
  split; [destruct ok; reflexivity |].
  split; [reflexivity |]. split; [reflexivity |].
  rewrite opened_files_app, http_requests_app, sleeps_app, printed_app, Hopen, Hhttp, Hsleep.
  cbn [opened_files http_requests sleeps printed]. rewrite !app_nil_r, <- app_assoc.
  split; [reflexivity |]. split; [reflexivity |]. split; [reflexivity |].
  split; [now exists (printed tr2) | exact Hok].
Qed.

Lemma zero_batch_size_raises_witness :
  exists tr' e name rest (ok : bool),
    upload_directory Sample.world Scenario.uploader_zero Sample.directory []
    = (tr', Raise e) /\
    exn_class_of e = ZeroDivisionError /\
    bundle_files_of Sample.world Sample.directory = name :: rest /\
    opened_files tr' = opened_files [] ++ [name; name] /\
    http_requests tr'
    = http_requests []
        ++ map (upload_request Scenario.uploader_zero)
             (readable_bundles Sample.world Sample.directory [name]) /\
    sleeps tr' = sleeps [] /\
    (exists before, printed tr' = before ++ [[FStr (if ok then "✓" else "✗")]]) /\
    (ok = true <->
     exists bundle response body,
       json_load Sample.world Sample.directory name = Return bundle /\
       session_send Sample.world (http_requests [])
         (upload_request Scenario.uploader_zero bundle) = Return response /\
       (status_code response = 200 \/ status_code response = 201)%Z /\
       json response = Return body /\
       truthy body = true).
Proof.
  apply (zero_batch_size_raises Sample.world Scenario.uploader_zero Sample.directory []).
  - reflexivity.
  - simpl. discriminate.
Defined.

(** X18. A bundle that is not an object, or whose [entry] is not a list
    (a number, [null], a string, an object), changes no counter, and
    neither does a bundle without [entry] or with an empty list. *)
Theorem count_bundle_without_entries bundle st :
  (forall items entries,
      bundle = VDict items -> dict_get items "entry" (VList []) = VList entries ->
      entries = []) ->
  fst (count_bundle bundle st) = st.
Proof.
  intros Hnone. unfold count_bundle.
  destruct bundle as [| b | z | f | s | l | items]; try reflexivity.
  cbn [py_get].
  destruct (dict_get items "entry" (VList [])) as [| b | z | f | s | entries | keys]
    eqn:Hentry; try reflexivity.
  - destruct s as [| c s]; reflexivity.
  - now rewrite (Hnone items entries eq_refl Hentry).
  - destruct keys as [| [k v] keys]; reflexivity.
Qed.

Lemma count_bundle_without_entries_witness :
  fst (count_bundle Sample.empty_bundle (mk_stats 3 0 0 1 2 3)) = mk_stats 3 0 0 1 2 3.
Proof.
  apply (count_bundle_without_entries Sample.empty_bundle (mk_stats 3 0 0 1 2 3)).
  intros items entries Hbundle Hentry. injection Hbundle as <-.
  simpl in Hentry. now injection Hentry as <-.
Defined.

(** ** The properties on the sample runs *)

Lemma upload_bundle_file_true_iff_witness :
  snd (upload_bundle_file Sample.world Sample.uploader Sample.directory "a.json" [])
  = Return true.
Proof.
  apply (proj2 (upload_bundle_file_true_iff Sample.world Sample.uploader
                  Sample.directory "a.json" [])).
  exists Sample.two_patients, Sample.accepted, (VDict [("resourceType", VStr "Bundle")]).
  repeat split; try reflexivity. left. reflexivity.
Defined.

Lemma batch_progress_witness :
  map (fun sf => (fst sf + snd sf)%Z)
    (progress_lines
       (fst (upload_directory Sample.world Scenario.uploader_pairs Sample.directory [])))
  = map (fun sf => (fst sf + snd sf)%Z) (progress_lines [])
      ++ filter (fun k => (k mod batch_size Scenario.uploader_pairs =? 0)%Z)
           (map Z.of_nat (seq 1 (total (mk_stats 3 2 1 2 0 0)))).
Proof.
  apply (batch_progress Sample.world Scenario.uploader_pairs Sample.directory []
           _ (mk_stats 3 2 1 2 0 0)).
  vm_compute. reflexivity.
Defined.

Lemma accepting_server_succeeds_all_witness :
  exists tr' st,
    upload_directory Scenario.world_clean Sample.uploader Sample.directory []
    = (tr', Return st) /\
    successful st
    = List.length (filter glob_json (listdir Scenario.world_clean Sample.directory)) /\
    failed st = 0.
Proof.
  apply (accepting_server_succeeds_all Scenario.world_clean Sample.uploader
           Sample.directory []).
  - intros name [<- | [<- | []]]; eexists; reflexivity.
  - intros sent req.
    exists Sample.accepted, (VDict [("resourceType", VStr "Bundle")]).
    repeat split; try reflexivity. left. reflexivity.
  - simpl. discriminate.
  - simpl. lia.
  - reflexivity.
Defined.

Lemma test_connection_true_iff_witness :
  snd (test_connection Sample.world Sample.uploader []) = Return true.
Proof.
  apply (proj2 (proj1 (test_connection_true_iff Sample.world Sample.uploader []))).
  exists Sample.accepted, [("resourceType", VStr "Bundle")], [].
  repeat split; reflexivity.
Defined.

Lemma search_patients_result_witness :
  snd (search_patients Sample.world Sample.uploader None [])
  = Return (VDict [("resourceType", VStr "Bundle")]).
Proof.
  apply (proj1 (search_patients_result Sample.world Sample.uploader None [])
           Sample.accepted); reflexivity.
Defined.

Lemma main_stops_when_not_connected_witness :
  snd (main Sample.world_unreachable []) = Return tt /\
  http_requests (fst (main Sample.world_unreachable []))
  = http_requests [] ++ [metadata_request (main_uploader Sample.world_unreachable)] /\
  opened_files (fst (main Sample.world_unreachable [])) = opened_files [].
Proof.
  apply (main_stops_when_not_connected Sample.world_unreachable []).
  - exists "fhir.example.com", "id", "secret".
    repeat split; try reflexivity; discriminate.
  - intros (response & items & software & Hsend & _). discriminate Hsend.
Defined.

Lemma main_stops_without_directory_witness :
  snd (main Scenario.world_no_directory []) = Return tt /\
  http_requests (fst (main Scenario.world_no_directory []))
  = http_requests [] ++ [metadata_request (main_uploader Scenario.world_no_directory)] /\
  opened_files (fst (main Scenario.world_no_directory [])) = opened_files [].
Proof.
  apply (main_stops_without_directory Scenario.world_no_directory []).
  - exists "fhir.example.com", "id", "secret".
    repeat split; try reflexivity; discriminate.
  - exists Sample.accepted, [("resourceType", VStr "Bundle")], [].
    repeat split; reflexivity.
  - reflexivity.
Defined.

Lemma main_raises_on_empty_directory_witness :
  snd (main Sample.world_empty [])
  = Raise (mk_exn ZeroDivisionError "division by zero") /\
  http_requests (fst (main Sample.world_empty []))
  = http_requests [] ++ [metadata_request (main_uploader Sample.world_empty)].
Proof.
  apply (main_raises_on_empty_directory Sample.world_empty []).
  - exists "fhir.example.com", "id", "secret".
    repeat split; try reflexivity; discriminate.
  - exists Sample.accepted, [("resourceType", VStr "Bundle")], [].
    repeat split; reflexivity.
  - reflexivity.
  - reflexivity.
Defined.

Lemma main_full_run_witness :
  snd (main Sample.world []) = Return tt /\
  http_requests (fst (main Sample.world []))
  = http_requests []
      ++ metadata_request (main_uploader Sample.world)
         :: map (upload_request (main_uploader Sample.world))
              (readable_bundles Sample.world (main_directory Sample.world)
                 (bundle_files_of Sample.world (main_directory Sample.world)))
      ++ [search_request (main_uploader Sample.world) (Some [("_count", "10")])] /\
  opened_files (fst (main Sample.world []))
  = opened_files [] ++ twice (bundle_files_of Sample.world (main_directory Sample.world)).
Proof.
  apply (main_full_run Sample.world []).
  - exists "fhir.example.com", "id", "secret".
    repeat split; try reflexivity; discriminate.
  - exists Sample.accepted, [("resourceType", VStr "Bundle")], [].
    repeat split; reflexivity.
  - reflexivity.
  - simpl. discriminate.
  - reflexivity.
  - intros sent response result Hsend _ Hjson _.
    simpl in Hsend. injection Hsend as <-. simpl in Hjson. injection Hjson as <-.
    eexists. reflexivity.
Defined.

Lemma main_raises_on_search_result_witness :
  exists e, snd (main Scenario.world_list_search []) = Raise e /\
            exn_class_of e = AttributeError.
Proof.
  refine (proj1 (main_raises_on_search_result Scenario.world_list_search []
                   Scenario.patient_list _ _ _ _ _ _ _ _)).
  - exists "fhir.example.com", "id", "secret".
    repeat split; try reflexivity; discriminate.
  - exists Sample.accepted, [("resourceType", VStr "Bundle")], [].
    repeat split; reflexivity.
  - reflexivity.
  - simpl. discriminate.
  - reflexivity.
  - intros sent. exists Scenario.list_page. repeat split; reflexivity.
  - reflexivity.
  - intros items. discriminate.
Defined.

Lemma main_requests_authenticated_witness :
  exists reqs,
    http_requests (fst (main Sample.world [])) = http_requests [] ++ reqs /\
    Forall (fun req =>
              String.prefix
                (String.append "https://" (String.append "fhir.example.com" "/fhir/R4"))
                (url req) = true /\
              headers req = [ ("Content-Type", "application/fhir+json");
                              ("Accept", "application/fhir+json");
                              ("CF-Access-Client-Id", "id");
                              ("CF-Access-Client-Secret", "secret") ]) reqs.
Proof.
  apply (main_requests_authenticated Sample.world [] "fhir.example.com" "id" "secret");
    reflexivity.
Defined.
